(** * SSL connector of the MongoDB tools: context builder and dialer

    Shallow embedding of [common/db/openssl/openssl.go]: the context
    builder [setupCtx], the connector methods [Configure] and
    [GetNewSession], and the dialer closure that [Configure] hands to the
    session layer.

    The program orchestrates two external collaborators, the OpenSSL
    binding ([openssl.*]) and the session layer ([mgo.*]).  Their answers
    are not decided by this code, so they enter the model as oracles; every
    call the program issues on the binding is appended to a trace, and the
    context value records the settings the program requested on it. *)

From Stdlib Require Import ZArith List String Bool Lia.
Import ListNotations.
Open Scope string_scope.
Open Scope Z_scope.

(** Go's [error] values are observed through their message. *)
Definition error := string.

(** [%v] of a Go [bool]. *)
Definition fmt_bool (b : bool) : string := if b then "true" else "false".

(** [s != ""] *)
Definition nonempty (s : string) : bool := negb (String.eqb s "").

(** A function either returns or panics. *)
Inductive Outcome (A : Type) : Type :=
| Returned (a : A)
| Panicked (msg : string).
Arguments Returned {A} a.
Arguments Panicked {A} msg.

(** ** Package [time] *)
Module time.
Definition Duration := Z.
Definition Nanosecond : Duration := 1.
Definition Microsecond : Duration := 1000 * Nanosecond.
Definition Millisecond : Duration := 1000 * Microsecond.
Definition Second : Duration := 1000 * Millisecond.
End time.

(** ** Package [options]: the fields of [ToolOptions] the connector reads *)
Module options.
Record Auth := {
  Username : string;
  Password : string;
  Source : string;
  Mechanism : string
}.

Record ToolOptions := {
  Host : string;
  Port : string;
  SSLFipsMode : bool;
  SSLAllowInvalidCert : bool;
  SSLAllowInvalidHost : bool;
  SSLCAFile : string;
  SSLPEMKeyFile : string;
  SSLPEMKeyPassword : string;
  SSLCRLFile : string;
  auth : Auth
}.
End options.

(** ** Package [openssl]: the binding's types, constants and oracles *)
Module openssl.
Inductive SSLVersion := SSLv3 | TLSv1 | TLSv1_1 | TLSv1_2 | AnyVersion.
Inductive Filetypes := FiletypePEM | FiletypeASN1.
Inductive VerifyOptions :=
  VerifyNone | VerifyPeer | VerifyFailIfNoPeerCert | VerifyClientOnce.
Inductive SessionCacheModes :=
  SessionCacheOff | SessionCacheClient | SessionCacheServer | SessionCacheBoth.
Inductive X509LookupMethod := LookupFile | LookupHashDir.

(** Bit masks ([Options], [Modes], [X509VerificationFlag], [DialFlags]). *)
Definition Options := Z.
Definition Modes := Z.
Definition X509VerificationFlag := Z.
Definition DialFlags := Z.

(** [*StackOfX509Name]: the names read from a CA file. *)
Record StackOfX509Name := { ca_names_of : string }.

(** [*CertificateStore]: flags set, lookups registered, locations loaded. *)
Record CertificateStore := {
  store_flags : X509VerificationFlag;
  store_verify_locations : list (string * string);
  store_lookups : list X509LookupMethod
}.

(** [*CertificateStoreLookup] *)
Record CertificateStoreLookup := { lookup_method : X509LookupMethod }.

(** [*Ctx]: the settings requested on a context since its creation, each
    field holding what the calls on the context asked for (for the
    cipher list: the list most recently handed to [SetCipherList]).
    [None] / [0] / [[]] mean that the program has not touched the setting,
    which is then the library's default. *)
Record Ctx := {
  ctx_version : SSLVersion;
  ctx_options : Options;
  ctx_cipher_list : option string;
  ctx_cert_chain_file : option string;
  ctx_private_key : option (string * Filetypes * option string);
  ctx_mode : Modes;
  ctx_session_cache_mode : option SessionCacheModes;
  ctx_client_ca_list : option StackOfX509Name;
  ctx_verify : option VerifyOptions;
  ctx_store : CertificateStore
}.

(** [*Conn] *)
Record Conn := { conn_addr : string; conn_flags : DialFlags }.

(** The calls the program can issue on the binding. *)
Inductive Call :=
| CFIPSModeSet (mode : bool)
| CNewCtxWithVersion (v : SSLVersion)
| CSetOptions (o : Options)
| CSetCipherList (l : string)
| CUseCertificateChainFile (f : string)
| CUsePrivateKeyFileWithPassword (f : string) (t : Filetypes) (pw : string)
| CUsePrivateKeyFile (f : string) (t : Filetypes)
| CCheckPrivateKey
| CSetMode (m : Modes)
| CSetSessionCacheMode (m : SessionCacheModes)
| CLoadClientCAFile (f : string)
| CSetClientCAList (l : StackOfX509Name)
| CLoadVerifyLocations (f : string) (dir : string)
| CSetVerify (v : VerifyOptions)
| CGetCertificateStore
| CStoreSetFlags (fl : X509VerificationFlag)
| CX509LookupFile
| CAddLookup (m : X509LookupMethod)
| CLoadCRLFile (f : string)
| CDial (network addr : string) (c : option Ctx) (flags : DialFlags).

(** The binding as seen by the program: the values of the constants it
    declares (their declarations are not part of the sources, so the
    program is verified for any values), and, for every call that can fail,
    whether it does ([None] is Go's [nil] error). *)
Record Lib := {
  InsecureSkipHostVerification : DialFlags;
  OpAll : Options;
  NoSSLv2 : Options;
  AutoRetry : Modes;
  CRLCheck : X509VerificationFlag;
  FIPSModeSet_err : bool -> option error;
  NewCtxWithVersion_err : SSLVersion -> option error;
  SetCipherList_err : string -> option error;
  UseCertificateChainFile_err : string -> option error;
  UsePrivateKeyFileWithPassword_err :
    string -> Filetypes -> string -> option error;
  UsePrivateKeyFile_err : string -> Filetypes -> option error;
  CheckPrivateKey_err : Ctx -> option error;
  LoadClientCAFile_res : string -> StackOfX509Name + error;
  LoadVerifyLocations_err : string -> string -> option error;
  AddLookup_err : CertificateStore -> X509LookupMethod -> option error;
  LoadCRLFile_err : string -> option error;
  Dial_res : string -> string -> option Ctx -> DialFlags -> Conn + error
}.

Definition empty_store : CertificateStore :=
  {| store_flags := 0; store_verify_locations := [];
     store_lookups := [] |}.

(** A context on which nothing has been requested yet. *)
Definition new_ctx (v : SSLVersion) : Ctx :=
  {| ctx_version := v; ctx_options := 0; ctx_cipher_list := None;
     ctx_cert_chain_file := None; ctx_private_key := None;
     ctx_mode := 0; ctx_session_cache_mode := None;
     ctx_client_ca_list := None; ctx_verify := None;
     ctx_store := empty_store |}.

Definition with_options (o : Options) (c : Ctx) : Ctx :=
  {| ctx_version := ctx_version c; ctx_options := o;
     ctx_cipher_list := ctx_cipher_list c;
     ctx_cert_chain_file := ctx_cert_chain_file c;
     ctx_private_key := ctx_private_key c; ctx_mode := ctx_mode c;
     ctx_session_cache_mode := ctx_session_cache_mode c;
     ctx_client_ca_list := ctx_client_ca_list c;
     ctx_verify := ctx_verify c; ctx_store := ctx_store c |}.

Definition with_cipher_list (l : option string) (c : Ctx) : Ctx :=
  {| ctx_version := ctx_version c; ctx_options := ctx_options c;
     ctx_cipher_list := l;
     ctx_cert_chain_file := ctx_cert_chain_file c;
     ctx_private_key := ctx_private_key c; ctx_mode := ctx_mode c;
     ctx_session_cache_mode := ctx_session_cache_mode c;
     ctx_client_ca_list := ctx_client_ca_list c;
     ctx_verify := ctx_verify c; ctx_store := ctx_store c |}.

Definition with_cert_chain_file (f : option string) (c : Ctx) : Ctx :=
  {| ctx_version := ctx_version c; ctx_options := ctx_options c;
     ctx_cipher_list := ctx_cipher_list c;
     ctx_cert_chain_file := f;
     ctx_private_key := ctx_private_key c; ctx_mode := ctx_mode c;
     ctx_session_cache_mode := ctx_session_cache_mode c;
     ctx_client_ca_list := ctx_client_ca_list c;
     ctx_verify := ctx_verify c; ctx_store := ctx_store c |}.

Definition with_private_key
    (k : option (string * Filetypes * option string)) (c : Ctx) : Ctx :=
  {| ctx_version := ctx_version c; ctx_options := ctx_options c;
     ctx_cipher_list := ctx_cipher_list c;
     ctx_cert_chain_file := ctx_cert_chain_file c;
     ctx_private_key := k; ctx_mode := ctx_mode c;
     ctx_session_cache_mode := ctx_session_cache_mode c;
     ctx_client_ca_list := ctx_client_ca_list c;
     ctx_verify := ctx_verify c; ctx_store := ctx_store c |}.

Definition with_mode (m : Modes) (c : Ctx) : Ctx :=
  {| ctx_version := ctx_version c; ctx_options := ctx_options c;
     ctx_cipher_list := ctx_cipher_list c;
     ctx_cert_chain_file := ctx_cert_chain_file c;
     ctx_private_key := ctx_private_key c; ctx_mode := m;
     ctx_session_cache_mode := ctx_session_cache_mode c;
     ctx_client_ca_list := ctx_client_ca_list c;
     ctx_verify := ctx_verify c; ctx_store := ctx_store c |}.

Definition with_session_cache_mode
    (m : option SessionCacheModes) (c : Ctx) : Ctx :=
  {| ctx_version := ctx_version c; ctx_options := ctx_options c;
     ctx_cipher_list := ctx_cipher_list c;
     ctx_cert_chain_file := ctx_cert_chain_file c;
     ctx_private_key := ctx_private_key c; ctx_mode := ctx_mode c;
     ctx_session_cache_mode := m;
     ctx_client_ca_list := ctx_client_ca_list c;
     ctx_verify := ctx_verify c; ctx_store := ctx_store c |}.

Definition with_client_ca_list
    (l : option StackOfX509Name) (c : Ctx) : Ctx :=
  {| ctx_version := ctx_version c; ctx_options := ctx_options c;
     ctx_cipher_list := ctx_cipher_list c;
     ctx_cert_chain_file := ctx_cert_chain_file c;
     ctx_private_key := ctx_private_key c; ctx_mode := ctx_mode c;
     ctx_session_cache_mode := ctx_session_cache_mode c;
     ctx_client_ca_list := l;
     ctx_verify := ctx_verify c; ctx_store := ctx_store c |}.

Definition with_verify (v : option VerifyOptions) (c : Ctx) : Ctx :=
  {| ctx_version := ctx_version c; ctx_options := ctx_options c;
     ctx_cipher_list := ctx_cipher_list c;
     ctx_cert_chain_file := ctx_cert_chain_file c;
     ctx_private_key := ctx_private_key c; ctx_mode := ctx_mode c;
     ctx_session_cache_mode := ctx_session_cache_mode c;
     ctx_client_ca_list := ctx_client_ca_list c;
     ctx_verify := v; ctx_store := ctx_store c |}.

Definition with_store (s : CertificateStore) (c : Ctx) : Ctx :=
  {| ctx_version := ctx_version c; ctx_options := ctx_options c;
     ctx_cipher_list := ctx_cipher_list c;
     ctx_cert_chain_file := ctx_cert_chain_file c;
     ctx_private_key := ctx_private_key c; ctx_mode := ctx_mode c;
     ctx_session_cache_mode := ctx_session_cache_mode c;
     ctx_client_ca_list := ctx_client_ca_list c;
     ctx_verify := ctx_verify c; ctx_store := s |}.

Definition store_with_flags
    (fl : X509VerificationFlag) (s : CertificateStore) : CertificateStore :=
  {| store_flags := fl;
     store_verify_locations := store_verify_locations s;
     store_lookups := store_lookups s |}.

Definition store_with_verify_locations
    (l : list (string * string)) (s : CertificateStore) : CertificateStore :=
  {| store_flags := store_flags s;
     store_verify_locations := l;
     store_lookups := store_lookups s |}.

Definition store_with_lookups
    (l : list X509LookupMethod) (s : CertificateStore) : CertificateStore :=
  {| store_flags := store_flags s;
     store_verify_locations := store_verify_locations s;
     store_lookups := l |}.

End openssl.

(** [dialerFunc]: the function value handed to the session layer.  The only
    closure of this type the program builds is the one in [Configure]; it
    closes over the local [flags] and over the connector [self], which is
    the connector of the state it runs in.  [dialer] below is its body. *)
Record dialerFunc := { captured_flags : openssl.DialFlags }.

(** ** Package [mgo]: the session layer *)
Module mgo.
(** [*ServerAddr], observed through [String()]. *)
Record ServerAddr := { String : string }.

(** [*Session] *)
Record Session := { session_conns : list openssl.Conn }.

Record DialInfo := {
  Addrs : list string;
  Timeout : time.Duration;
  DialServer : dialerFunc;
  Username : string;
  Password : string;
  Source : string;
  Mechanism : string
}.

(** The session layer as seen by the connector: which addresses it asks the
    dialer for, and what it returns once the dialer has answered;
    [nil_info] is its reaction to a [nil] dial info. *)
Record Layer := {
  dial_plan : DialInfo -> list ServerAddr;
  finish : DialInfo -> list (openssl.Conn + error) -> Session + error;
  nil_info : Outcome (Session + error)
}.
End mgo.

(** ** Package [util] and the methods of [options] used by [Configure] *)
Record Helpers := {
  CreateConnectionAddrs : string -> string -> list string;
  GetAuthenticationDatabase : options.ToolOptions -> string
}.

(** The package-level variables of the connector's package, with the
    values they hold when [Configure] runs.  The package declares
    [DefaultSSLDialTimeout] as a variable and only ever reads it; whoever
    imports the package may assign it. *)
Record PackageVars := {
  DefaultSSLDialTimeout : time.Duration
}.

(** [var ( DefaultSSLDialTimeout = time.Second * 3 )]: the variables as
    declared, nobody having assigned them. *)
Definition declared_vars : PackageVars :=
  {| DefaultSSLDialTimeout := time.Second * 3 |}.

(** Everything the connector talks to or reads. *)
Record Env := {
  lib : openssl.Lib;
  session_layer : mgo.Layer;
  helpers : Helpers;
  vars : PackageVars
}.

(** ** The connector *)

(** For connecting to the database over ssl. *)
Record SSLDBConnector := {
  dialInfo : option mgo.DialInfo;
  dialError : option error;
  ctx : option openssl.Ctx
}.

(** The zero value, [SSLDBConnector{}]. *)
Definition zero_connector : SSLDBConnector :=
  {| dialInfo := None; dialError := None; ctx := None |}.

(** The connector [self] points to, and the calls issued on the binding so
    far, oldest first. *)
Record State := {
  self : SSLDBConnector;
  calls : list openssl.Call
}.

Definition initial_state : State := {| self := zero_connector; calls := [] |}.

(** *** The monad of the program: state passing *)
Definition M (A : Type) : Type := State -> A * State.

Definition ret {A} (a : A) : M A := fun s => (a, s).

Definition bind {A B} (m : M A) (k : A -> M B) : M B :=
  fun s => let (a, s') := m s in k a s'.

Declare Scope go_scope.
Delimit Scope go_scope with go.
Notation "x <- m ;; k" := (bind m (fun x => k))
  (at level 61, m at next level, right associativity) : go_scope.
Notation "m ;;; k" := (bind m (fun _ => k))
  (at level 61, right associativity) : go_scope.
Open Scope go_scope.

Definition get_self : M SSLDBConnector := fun s => (self s, s).

Definition set_ctx (c : option openssl.Ctx) : M unit :=
  fun s => (tt, {| self := {| dialInfo := dialInfo (self s);
                              dialError := dialError (self s);
                              ctx := c |};
                   calls := calls s |}).

Definition set_dialError (e : option error) : M unit :=
  fun s => (tt, {| self := {| dialInfo := dialInfo (self s);
                              dialError := e;
                              ctx := ctx (self s) |};
                   calls := calls s |}).

Definition set_dialInfo (d : option mgo.DialInfo) : M unit :=
  fun s => (tt, {| self := {| dialInfo := d;
                              dialError := dialError (self s);
                              ctx := ctx (self s) |};
                   calls := calls s |}).

(** Append a call to the trace. *)
Definition issue (c : openssl.Call) : M unit :=
  fun s => (tt, {| self := self s; calls := calls s ++ [c] |}).

(** Early return: [if err != nil { return nil, wrap(err) }]. *)
Definition ME (A : Type) : Type := M (A + error).

Definition ok {A} (a : A) : ME A := ret (inl a).

Definition fail {A} (e : error) : ME A := ret (inr e).

Definition bindE {A B} (m : ME A) (k : A -> ME B) : ME B :=
  r <- m ;;
  match r with
  | inl a => k a
  | inr e => ret (inr e)
  end.

Notation "x <-? m ;; k" := (bindE m (fun x => k))
  (at level 61, m at next level, right associativity) : go_scope.

(** [if err = call; err != nil { return nil, fmt.Errorf(prefix + "%v", err) }] *)
Definition check (prefix : string) (m : M (option error)) : ME unit :=
  err <- m ;;
  match err with
  | Some e => fail (prefix ++ e)
  | None => ok tt
  end.

(** [if x, err = call; err != nil { return nil, fmt.Errorf(prefix + "%v", err) }] *)
Definition wrap {A} (prefix : string) (m : ME A) : ME A :=
  r <- m ;;
  match r with
  | inl a => ok a
  | inr e => fail (prefix ++ e)
  end.

(** The same for a method that mutates its receiver and returns an error. *)
Definition checkC {A} (prefix : string) (m : M (A * option error)) : ME A :=
  r <- m ;;
  match snd r with
  | Some e => fail (prefix ++ e)
  | None => ok (fst r)
  end.

Section Program.
Variable E : Env.

(** *** The binding's functions and methods

    Each one appends its call to the trace, applies the requested setting to
    the receiver (passed and returned by value: [setupCtx] holds the only
    reference to the context it builds) and returns the binding's answer. *)

Definition FIPSModeSet (mode : bool) : M (option error) :=
  issue (openssl.CFIPSModeSet mode) ;;;
  ret (openssl.FIPSModeSet_err (lib E) mode).

Definition NewCtxWithVersion (v : openssl.SSLVersion) : ME openssl.Ctx :=
  issue (openssl.CNewCtxWithVersion v) ;;;
  match openssl.NewCtxWithVersion_err (lib E) v with
  | Some e => fail e
  | None => ok (openssl.new_ctx v)
  end.

Definition SetOptions (c : openssl.Ctx) (o : openssl.Options) : M openssl.Ctx :=
  issue (openssl.CSetOptions o) ;;;
  ret (openssl.with_options (Z.lor (openssl.ctx_options c) o) c).

Definition SetCipherList (c : openssl.Ctx) (l : string)
  : M (openssl.Ctx * option error) :=
  issue (openssl.CSetCipherList l) ;;;
  ret (openssl.with_cipher_list (Some l) c, openssl.SetCipherList_err (lib E) l).

Definition UseCertificateChainFile (c : openssl.Ctx) (cert_file : string)
  : M (openssl.Ctx * option error) :=
  issue (openssl.CUseCertificateChainFile cert_file) ;;;
  ret (openssl.with_cert_chain_file (Some cert_file) c,
       openssl.UseCertificateChainFile_err (lib E) cert_file).

Definition UsePrivateKeyFileWithPassword
    (c : openssl.Ctx) (key_file : string) (file_type : openssl.Filetypes)
    (password : string) : M (openssl.Ctx * option error) :=
  issue (openssl.CUsePrivateKeyFileWithPassword key_file file_type password) ;;;
  ret (openssl.with_private_key (Some (key_file, file_type, Some password)) c,
       openssl.UsePrivateKeyFileWithPassword_err (lib E)
         key_file file_type password).

Definition UsePrivateKeyFile
    (c : openssl.Ctx) (key_file : string) (file_type : openssl.Filetypes)
  : M (openssl.Ctx * option error) :=
  issue (openssl.CUsePrivateKeyFile key_file file_type) ;;;
  ret (openssl.with_private_key (Some (key_file, file_type, None)) c,
       openssl.UsePrivateKeyFile_err (lib E) key_file file_type).

Definition CheckPrivateKey (c : openssl.Ctx) : M (openssl.Ctx * option error) :=
  issue openssl.CCheckPrivateKey ;;;
  ret (c, openssl.CheckPrivateKey_err (lib E) c).

Definition SetMode (c : openssl.Ctx) (m : openssl.Modes) : M openssl.Ctx :=
  issue (openssl.CSetMode m) ;;;
  ret (openssl.with_mode (Z.lor (openssl.ctx_mode c) m) c).

Definition SetSessionCacheMode
    (c : openssl.Ctx) (m : openssl.SessionCacheModes) : M openssl.Ctx :=
  issue (openssl.CSetSessionCacheMode m) ;;;
  ret (openssl.with_session_cache_mode (Some m) c).

Definition LoadClientCAFile (ca_file : string) : ME openssl.StackOfX509Name :=
  issue (openssl.CLoadClientCAFile ca_file) ;;;
  ret (openssl.LoadClientCAFile_res (lib E) ca_file).

Definition SetClientCAList
    (c : openssl.Ctx) (caList : openssl.StackOfX509Name) : M openssl.Ctx :=
  issue (openssl.CSetClientCAList caList) ;;;
  ret (openssl.with_client_ca_list (Some caList) c).

Definition LoadVerifyLocations (c : openssl.Ctx) (ca_file ca_path : string)
  : M (openssl.Ctx * option error) :=
  issue (openssl.CLoadVerifyLocations ca_file ca_path) ;;;
  ret (openssl.with_store
         (openssl.store_with_verify_locations
            (openssl.store_verify_locations (openssl.ctx_store c)
               ++ [(ca_file, ca_path)])
            (openssl.ctx_store c)) c,
       openssl.LoadVerifyLocations_err (lib E) ca_file ca_path).

Definition SetVerify (c : openssl.Ctx) (o : openssl.VerifyOptions)
  : M openssl.Ctx :=
  issue (openssl.CSetVerify o) ;;;
  ret (openssl.with_verify (Some o) c).

(** [store := ctx.GetCertificateStore()]: the store stays part of the
    context, so the store's methods below take the context it lives in. *)
Definition GetCertificateStore (c : openssl.Ctx) : M openssl.CertificateStore :=
  issue openssl.CGetCertificateStore ;;;
  ret (openssl.ctx_store c).

Definition store_SetFlags (c : openssl.Ctx) (fl : openssl.X509VerificationFlag)
  : M openssl.Ctx :=
  issue (openssl.CStoreSetFlags fl) ;;;
  ret (openssl.with_store
         (openssl.store_with_flags
            (Z.lor (openssl.store_flags (openssl.ctx_store c)) fl)
            (openssl.ctx_store c)) c).

Definition X509LookupFile : M openssl.X509LookupMethod :=
  issue openssl.CX509LookupFile ;;;
  ret openssl.LookupFile.

Definition store_AddLookup (c : openssl.Ctx) (m : openssl.X509LookupMethod)
  : ME (openssl.Ctx * openssl.CertificateStoreLookup) :=
  issue (openssl.CAddLookup m) ;;;
  match openssl.AddLookup_err (lib E) (openssl.ctx_store c) m with
  | Some e => fail e
  | None =>
      ok (openssl.with_store
            (openssl.store_with_lookups
               (openssl.store_lookups (openssl.ctx_store c) ++ [m])
               (openssl.ctx_store c)) c,
          {| openssl.lookup_method := m |})
  end.

Definition lookup_LoadCRLFile
    (l : openssl.CertificateStoreLookup) (crl_file : string)
  : M (option error) :=
  issue (openssl.CLoadCRLFile crl_file) ;;;
  ret (openssl.LoadCRLFile_err (lib E) crl_file).

Definition Dial (network addr : string) (c : option openssl.Ctx)
    (flags : openssl.DialFlags) : M (openssl.Conn + error) :=
  issue (openssl.CDial network addr c flags) ;;;
  ret (openssl.Dial_res (lib E) network addr c flags).

(** *** [setupCtx]: creates and configures an [openssl.Ctx] *)
Definition setupCtx (opts : options.ToolOptions) : ME openssl.Ctx :=
  _ <-? check ("couldn't set FIPS mode to "
                 ++ fmt_bool (options.SSLFipsMode opts) ++ ": ")
          (FIPSModeSet (options.SSLFipsMode opts)) ;;
  ctx <-? wrap ("failure creating new openssl context with "
                  ++ "NewCtxWithVersion(AnyVersion): ")
            (NewCtxWithVersion openssl.AnyVersion) ;;
  (* OpAll - activate all bug workaround options; NoSSLv2 - disable SSL v2 *)
  ctx <- SetOptions ctx
           (Z.lor (openssl.OpAll (lib E)) (openssl.NoSSLv2 (lib E))) ;;
  (* the value SetCipherList returns is dropped *)
  r <- SetCipherList ctx "HIGH:!EXPORT:!aNULL@STRENGTH" ;;
  let ctx := fst r in
  (* add the PEM key file with the cert and private key, if specified *)
  ctx <-? (if nonempty (options.SSLPEMKeyFile opts) then
             ctx <-? checkC "UseCertificateChainFile: "
                       (UseCertificateChainFile ctx
                          (options.SSLPEMKeyFile opts)) ;;
             ctx <-? (if nonempty (options.SSLPEMKeyPassword opts) then
                        checkC "UsePrivateKeyFile: "
                          (UsePrivateKeyFileWithPassword ctx
                             (options.SSLPEMKeyFile opts) openssl.FiletypePEM
                             (options.SSLPEMKeyPassword opts))
                      else
                        checkC "UsePrivateKeyFile: "
                          (UsePrivateKeyFile ctx
                             (options.SSLPEMKeyFile opts)
                             openssl.FiletypePEM)) ;;
             (* verify that the certificate and the key go together *)
             checkC "CheckPrivateKey: " (CheckPrivateKey ctx)
           else ok ctx) ;;
  ctx <- SetMode ctx (openssl.AutoRetry (lib E)) ;;
  (* disable session caching *)
  ctx <- SetSessionCacheMode ctx openssl.SessionCacheOff ;;
  ctx <-? (if nonempty (options.SSLCAFile opts) then
             calist <-? wrap "LoadClientCAFile: "
                          (LoadClientCAFile (options.SSLCAFile opts)) ;;
             ctx <- SetClientCAList ctx calist ;;
             ctx <-? checkC "LoadVerifyLocations: "
                       (LoadVerifyLocations ctx (options.SSLCAFile opts) "") ;;
             let verifyOption :=
               if options.SSLAllowInvalidCert opts
               then openssl.VerifyNone
               else openssl.VerifyPeer in
             ctx <- SetVerify ctx verifyOption ;;
             ok ctx
           else ok ctx) ;;
  ctx <-? (if nonempty (options.SSLCRLFile opts) then
             _ <- GetCertificateStore ctx ;;
             ctx <- store_SetFlags ctx (openssl.CRLCheck (lib E)) ;;
             method <- X509LookupFile ;;
             r <-? wrap "AddLookup(X509LookupFile()): "
                     (store_AddLookup ctx method) ;;
             (* the value LoadCRLFile returns is dropped *)
             _ <- lookup_LoadCRLFile (snd r) (options.SSLCRLFile opts) ;;
             ok (fst r)
           else ok ctx) ;;
  ok ctx.

(** *** [Configure] *)
Definition Configure (opts : options.ToolOptions) : M (option error) :=
  (* create the addresses to be used to connect *)
  let connectionAddrs :=
    CreateConnectionAddrs (helpers E) (options.Host opts) (options.Port opts) in
  (* self.ctx, err = setupCtx(opts) *)
  r <- setupCtx opts ;;
  set_ctx (match r with inl c => Some c | inr _ => None end) ;;;
  match r with
  | inr err => ret (Some ("setupCtx: " ++ err))
  | inl _ =>
      let flags : openssl.DialFlags :=
        if options.SSLAllowInvalidCert opts
           || options.SSLAllowInvalidHost opts
           || String.eqb (options.SSLCAFile opts) ""
        then openssl.InsecureSkipHostVerification (lib E)
        else 0 in
      (* create the dialer func that will be used to connect *)
      let dialer := {| captured_flags := flags |} in
      (* set up the dial info *)
      set_dialInfo
        (Some {| mgo.Addrs := connectionAddrs;
                 mgo.Timeout := DefaultSSLDialTimeout (vars E);
                 mgo.DialServer := dialer;
                 mgo.Username := options.Username (options.auth opts);
                 mgo.Password := options.Password (options.auth opts);
                 mgo.Source := GetAuthenticationDatabase (helpers E) opts;
                 mgo.Mechanism := options.Mechanism (options.auth opts) |}) ;;;
      ret None
  end.

(** The body of the closure built in [Configure]:
    [conn, err := openssl.Dial("tcp", addr.String(), self.ctx, flags);
     self.dialError = err; return conn, err]. *)
Definition dialer (d : dialerFunc) (addr : mgo.ServerAddr)
  : M (openssl.Conn + error) :=
  s <- get_self ;;
  r <- Dial "tcp" (mgo.String addr) (ctx s) (captured_flags d) ;;
  set_dialError (match r with inl _ => None | inr err => Some err end) ;;;
  ret r.

(** *** The session layer's [DialWithInfo]

    It asks the dialer of the dial info for the addresses of its plan, one
    after the other, and returns a session or an error. *)
Fixpoint dial_each (d : dialerFunc) (addrs : list mgo.ServerAddr)
  : M (list (openssl.Conn + error)) :=
  match addrs with
  | [] => ret []
  | a :: rest =>
      r <- dialer d a ;;
      rs <- dial_each d rest ;;
      ret (r :: rs)
  end.

Definition DialWithInfo (info : option mgo.DialInfo)
  : M (Outcome (mgo.Session + error)) :=
  match info with
  | None => ret (mgo.nil_info (session_layer E))
  | Some di =>
      rs <- dial_each (mgo.DialServer di) (mgo.dial_plan (session_layer E) di) ;;
      ret (Returned (mgo.finish (session_layer E) di rs))
  end.

(** *** [GetNewSession]: dial the server *)
Definition GetNewSession : M (Outcome (mgo.Session + error)) :=
  s <- get_self ;;
  r <- DialWithInfo (dialInfo s) ;;
  match r with
  | Panicked msg => ret (Panicked msg)
  | Returned (inl session) => ret (Returned (inl session))
  | Returned (inr err) =>
      s <- get_self ;;
      match dialError s with
      | Some dialError =>
          ret (Returned (inr (err ++ ", openssl error: " ++ dialError)))
      | None => ret (Returned (inr err))
      end
  end.

End Program.

(** ** Sample collaborators, for running the program on concrete inputs *)

(** A binding whose loaders fail exactly on the paths listed in [missing],
    and whose [Dial] fails exactly on the addresses listed in [down];
    the constants are those of the OpenSSL 1.0 headers. *)
Definition mem_string (x : string) (l : list string) : bool :=
  existsb (String.eqb x) l.

Definition load_err (missing : list string) (f : string) : option error :=
  if mem_string f missing then Some ("no such file: " ++ f) else None.

Definition sample_lib (missing down : list string) : openssl.Lib :=
  {| openssl.InsecureSkipHostVerification := 1;
     openssl.OpAll := 0x80000BFF;
     openssl.NoSSLv2 := 0x01000000;
     openssl.AutoRetry := 0x4;
     openssl.CRLCheck := 0x4;
     openssl.FIPSModeSet_err := fun _ => None;
     openssl.NewCtxWithVersion_err := fun _ => None;
     openssl.SetCipherList_err := fun _ => None;
     openssl.UseCertificateChainFile_err := load_err missing;
     openssl.UsePrivateKeyFileWithPassword_err :=
       fun f _ _ => load_err missing f;
     openssl.UsePrivateKeyFile_err := fun f _ => load_err missing f;
     openssl.CheckPrivateKey_err := fun _ => None;
     openssl.LoadClientCAFile_res :=
       fun f => match load_err missing f with
                | Some e => inr e
                | None => inl {| openssl.ca_names_of := f |}
                end;
     openssl.LoadVerifyLocations_err := fun f _ => load_err missing f;
     openssl.AddLookup_err := fun _ _ => None;
     openssl.LoadCRLFile_err := load_err missing;
     openssl.Dial_res :=
       fun _ addr _ flags =>
         if mem_string addr down
         then inr ("SSL errors: connection refused: " ++ addr)
         else inl {| openssl.conn_addr := addr;
                     openssl.conn_flags := flags |} |}.

(** A session layer that dials every seed address in turn and fails when
    one of them could not be dialed; it panics on a [nil] dial info. *)
Definition is_conn (r : openssl.Conn + error) : bool :=
  match r with inl _ => true | inr _ => false end.

Definition conns_of (rs : list (openssl.Conn + error)) : list openssl.Conn :=
  flat_map (fun r => match r with inl c => [c] | inr _ => [] end) rs.

Definition sample_session_layer : mgo.Layer :=
  {| mgo.dial_plan :=
       fun di => map (fun a => {| mgo.String := a |}) (mgo.Addrs di);
     mgo.finish :=
       fun _ rs =>
         if forallb is_conn rs
         then inl {| mgo.session_conns := conns_of rs |}
         else inr "no reachable servers";
     mgo.nil_info :=
       Panicked "runtime error: invalid memory address or nil pointer dereference" |}.

Definition sample_helpers : Helpers :=
  {| CreateConnectionAddrs := fun host port => [host ++ ":" ++ port];
     GetAuthenticationDatabase := fun opts => options.Source (options.auth opts) |}.

Definition sample_env (missing down : list string) : Env :=
  {| lib := sample_lib missing down;
     session_layer := sample_session_layer;
     helpers := sample_helpers;
     vars := declared_vars |}.

Definition no_auth : options.Auth :=
  {| options.Username := ""; options.Password := "";
     options.Source := ""; options.Mechanism := "" |}.

(** Plain options: no files, no relaxations. *)
Definition plain_opts : options.ToolOptions :=
  {| options.Host := "db.example.net"; options.Port := "27017";
     options.SSLFipsMode := false;
     options.SSLAllowInvalidCert := false;
     options.SSLAllowInvalidHost := false;
     options.SSLCAFile := ""; options.SSLPEMKeyFile := "";
     options.SSLPEMKeyPassword := ""; options.SSLCRLFile := "";
     options.auth := no_auth |}.

(** Options naming a CA file, a PEM key file with password and a CRL file. *)
Definition full_opts : options.ToolOptions :=
  {| options.Host := "db.example.net"; options.Port := "27017";
     options.SSLFipsMode := false;
     options.SSLAllowInvalidCert := false;
     options.SSLAllowInvalidHost := false;
     options.SSLCAFile := "ca.pem"; options.SSLPEMKeyFile := "client.pem";
     options.SSLPEMKeyPassword := "secret"; options.SSLCRLFile := "crl.pem";
     options.auth := no_auth |}.

(** Options naming nothing but a CRL file. *)
Definition crl_opts : options.ToolOptions :=
  {| options.Host := "db.example.net"; options.Port := "27017";
     options.SSLFipsMode := false;
     options.SSLAllowInvalidCert := false;
     options.SSLAllowInvalidHost := false;
     options.SSLCAFile := ""; options.SSLPEMKeyFile := "";
     options.SSLPEMKeyPassword := ""; options.SSLCRLFile := "missing.crl";
     options.auth := no_auth |}.

(** The dial info [Configure] builds from [full_opts]. *)
Definition full_dialInfo : mgo.DialInfo :=
  {| mgo.Addrs := ["db.example.net:27017"];
     mgo.Timeout := 3000000000;
     mgo.DialServer := {| captured_flags := 0 |};
     mgo.Username := ""; mgo.Password := "";
     mgo.Source := ""; mgo.Mechanism := "" |}.

(** Substring: [sub] occurs in [s]. *)
Definition contains (sub s : string) : Prop :=
  exists pre post, s = pre ++ sub ++ post.


(** ** Vocabulary of the statements *)

(** The options with the allow-invalid-certificate flag replaced. *)
Definition with_SSLAllowInvalidCert (b : bool) (o : options.ToolOptions)
  : options.ToolOptions :=
  {| options.Host := options.Host o; options.Port := options.Port o;
     options.SSLFipsMode := options.SSLFipsMode o;
     options.SSLAllowInvalidCert := b;
     options.SSLAllowInvalidHost := options.SSLAllowInvalidHost o;
     options.SSLCAFile := options.SSLCAFile o;
     options.SSLPEMKeyFile := options.SSLPEMKeyFile o;
     options.SSLPEMKeyPassword := options.SSLPEMKeyPassword o;
     options.SSLCRLFile := options.SSLCRLFile o;
     options.auth := options.auth o |}.

(** The environment with the binding's answer to [SetCipherList] replaced. *)
Definition with_SetCipherList_err (f : string -> option error) (E : Env) : Env :=
  {| lib :=
       {| openssl.InsecureSkipHostVerification :=
            openssl.InsecureSkipHostVerification (lib E);
          openssl.OpAll := openssl.OpAll (lib E);
          openssl.NoSSLv2 := openssl.NoSSLv2 (lib E);
          openssl.AutoRetry := openssl.AutoRetry (lib E);
          openssl.CRLCheck := openssl.CRLCheck (lib E);
          openssl.FIPSModeSet_err := openssl.FIPSModeSet_err (lib E);
          openssl.NewCtxWithVersion_err :=
            openssl.NewCtxWithVersion_err (lib E);
          openssl.SetCipherList_err := f;
          openssl.UseCertificateChainFile_err :=
            openssl.UseCertificateChainFile_err (lib E);
          openssl.UsePrivateKeyFileWithPassword_err :=
            openssl.UsePrivateKeyFileWithPassword_err (lib E);
          openssl.UsePrivateKeyFile_err := openssl.UsePrivateKeyFile_err (lib E);
          openssl.CheckPrivateKey_err := openssl.CheckPrivateKey_err (lib E);
          openssl.LoadClientCAFile_res := openssl.LoadClientCAFile_res (lib E);
          openssl.LoadVerifyLocations_err :=
            openssl.LoadVerifyLocations_err (lib E);
          openssl.AddLookup_err := openssl.AddLookup_err (lib E);
          openssl.LoadCRLFile_err := openssl.LoadCRLFile_err (lib E);
          openssl.Dial_res := openssl.Dial_res (lib E) |};
     session_layer := session_layer E;
     helpers := helpers E;
     vars := vars E |}.

Definition is_SetVerify (c : openssl.Call) : bool :=
  match c with openssl.CSetVerify _ => true | _ => false end.

Definition is_Dial (c : openssl.Call) : bool :=
  match c with openssl.CDial _ _ _ _ => true | _ => false end.

(** The three calls of the PEM key-file step. *)
Definition is_pem_call (c : openssl.Call) : bool :=
  match c with
  | openssl.CUseCertificateChainFile _
  | openssl.CUsePrivateKeyFileWithPassword _ _ _
  | openssl.CUsePrivateKeyFile _ _
  | openssl.CCheckPrivateKey => true
  | _ => false
  end.

(** A call with the argument of [SetVerify] blanked out. *)
Definition erase_verify (c : openssl.Call) : openssl.Call :=
  match c with
  | openssl.CSetVerify _ => openssl.CSetVerify openssl.VerifyNone
  | _ => c
  end.

(** A build result with the context's verification mode blanked out. *)
Definition erase_ctx_verify (r : openssl.Ctx + error) : openssl.Ctx + error :=
  match r with
  | inl c => inl (openssl.with_verify None c)
  | inr e => inr e
  end.

(** The cipher policy of the builder. *)
Definition cipher_policy : string := "HIGH:!EXPORT:!aNULL@STRENGTH".

(** The options with the fields the builder does not read replaced. *)
Definition with_connection_fields
    (host port : string) (a : options.Auth) (allowInvalidHost : bool)
    (o : options.ToolOptions) : options.ToolOptions :=
  {| options.Host := host; options.Port := port;
     options.SSLFipsMode := options.SSLFipsMode o;
     options.SSLAllowInvalidCert := options.SSLAllowInvalidCert o;
     options.SSLAllowInvalidHost := allowInvalidHost;
     options.SSLCAFile := options.SSLCAFile o;
     options.SSLPEMKeyFile := options.SSLPEMKeyFile o;
     options.SSLPEMKeyPassword := options.SSLPEMKeyPassword o;
     options.SSLCRLFile := options.SSLCRLFile o;
     options.auth := a |}.

(** The context on which the builder calls [CheckPrivateKey]: cipher list
    and options set, certificate chain and key taken from the PEM file. *)
Definition pem_ctx (E : Env) (opts : options.ToolOptions) : openssl.Ctx :=
  openssl.with_private_key
    (Some (options.SSLPEMKeyFile opts, openssl.FiletypePEM,
           if nonempty (options.SSLPEMKeyPassword opts)
           then Some (options.SSLPEMKeyPassword opts) else None))
    (openssl.with_cert_chain_file (Some (options.SSLPEMKeyFile opts))
       (openssl.with_cipher_list (Some cipher_policy)
          (openssl.with_options
             (Z.lor (openssl.OpAll (lib E)) (openssl.NoSSLv2 (lib E)))
             (openssl.new_ctx openssl.AnyVersion)))).

(** The certificate store on which the builder calls [AddLookup]: the CRL
    check flag set, and the CA file among the verify locations if one was
    given. *)
Definition crl_store (E : Env) (opts : options.ToolOptions)
  : openssl.CertificateStore :=
  openssl.store_with_flags (openssl.CRLCheck (lib E))
    (if nonempty (options.SSLCAFile opts)
     then openssl.store_with_verify_locations
            [(options.SSLCAFile opts, "")] openssl.empty_store
     else openssl.empty_store).

(** The calls that follow [LoadClientCAFile] in the CA-file step. *)
Definition is_ca_followup (c : openssl.Call) : bool :=
  match c with
  | openssl.CSetClientCAList _
  | openssl.CLoadVerifyLocations _ _
  | openssl.CSetVerify _ => true
  | _ => false
  end.

(** The calls of the CRL-file step. *)
Definition is_crl_call (c : openssl.Call) : bool :=
  match c with
  | openssl.CGetCertificateStore
  | openssl.CStoreSetFlags _
  | openssl.CX509LookupFile
  | openssl.CAddLookup _
  | openssl.CLoadCRLFile _ => true
  | _ => false
  end.

Definition is_LoadCRLFile (c : openssl.Call) : bool :=
  match c with openssl.CLoadCRLFile _ => true | _ => false end.

(** The environment with the binding's answers to [FIPSModeSet],
    [NewCtxWithVersion] and [AddLookup] replaced. *)
Definition with_early_answers
    (fips : bool -> option error)
    (newctx : openssl.SSLVersion -> option error)
    (addlookup : openssl.CertificateStore -> openssl.X509LookupMethod
                 -> option error)
    (E : Env) : Env :=
  {| lib :=
       {| openssl.InsecureSkipHostVerification :=
            openssl.InsecureSkipHostVerification (lib E);
          openssl.OpAll := openssl.OpAll (lib E);
          openssl.NoSSLv2 := openssl.NoSSLv2 (lib E);
          openssl.AutoRetry := openssl.AutoRetry (lib E);
          openssl.CRLCheck := openssl.CRLCheck (lib E);
          openssl.FIPSModeSet_err := fips;
          openssl.NewCtxWithVersion_err := newctx;
          openssl.SetCipherList_err := openssl.SetCipherList_err (lib E);
          openssl.UseCertificateChainFile_err :=
            openssl.UseCertificateChainFile_err (lib E);
          openssl.UsePrivateKeyFileWithPassword_err :=
            openssl.UsePrivateKeyFileWithPassword_err (lib E);
          openssl.UsePrivateKeyFile_err := openssl.UsePrivateKeyFile_err (lib E);
          openssl.CheckPrivateKey_err := openssl.CheckPrivateKey_err (lib E);
          openssl.LoadClientCAFile_res := openssl.LoadClientCAFile_res (lib E);
          openssl.LoadVerifyLocations_err :=
            openssl.LoadVerifyLocations_err (lib E);
          openssl.AddLookup_err := addlookup;
          openssl.LoadCRLFile_err := openssl.LoadCRLFile_err (lib E);
          openssl.Dial_res := openssl.Dial_res (lib E) |};
     session_layer := session_layer E;
     helpers := helpers E;
     vars := vars E |}.

(** A binding without FIPS support. *)
Definition no_fips_env : Env :=
  with_early_answers
    (fun mode => if mode then Some "FIPS mode not supported" else None)
    (fun _ => None) (fun _ _ => None) (sample_env [] []).

(** A binding that cannot allocate a context. *)
Definition no_ctx_env : Env :=
  with_early_answers
    (fun _ => None) (fun _ => Some "SSL_CTX_new failed") (fun _ _ => None)
    (sample_env [] []).

(** A binding that cannot register a lookup. *)
Definition no_lookup_env : Env :=
  with_early_answers
    (fun _ => None) (fun _ => None) (fun _ _ => Some "X509_STORE_add_lookup failed")
    (sample_env [] []).

(** [full_opts] asking for FIPS mode. *)
Definition fips_opts : options.ToolOptions :=
  {| options.Host := "db.example.net"; options.Port := "27017";
     options.SSLFipsMode := true;
     options.SSLAllowInvalidCert := false;
     options.SSLAllowInvalidHost := false;
     options.SSLCAFile := "ca.pem"; options.SSLPEMKeyFile := "client.pem";
     options.SSLPEMKeyPassword := "secret"; options.SSLCRLFile := "crl.pem";
     options.auth := no_auth |}.

(** A session layer that gives up before dialing any address. *)
Definition idle_session_layer : mgo.Layer :=
  {| mgo.dial_plan := fun _ => [];
     mgo.finish := fun _ _ => inr "no reachable servers";
     mgo.nil_info :=
       Panicked "runtime error: invalid memory address or nil pointer dereference" |}.

(** [sample_env] with the session layer replaced. *)
Definition with_session_layer (l : mgo.Layer) (E : Env) : Env :=
  {| lib := lib E; session_layer := l; helpers := helpers E;
     vars := vars E |}.

(** The answers of the binding that let the builder get past a step.  Each
    is stated on the arguments the builder passes at that step. *)

(** [FIPSModeSet] and [NewCtxWithVersion] succeed. *)
Definition early_steps_pass (E : Env) (opts : options.ToolOptions) : Prop :=
  openssl.FIPSModeSet_err (lib E) (options.SSLFipsMode opts) = None /\
  openssl.NewCtxWithVersion_err (lib E) openssl.AnyVersion = None.

(** If a PEM key file is given, its three calls succeed. *)
Definition pem_step_passes (E : Env) (opts : options.ToolOptions) : Prop :=
  nonempty (options.SSLPEMKeyFile opts) = true ->
  openssl.UseCertificateChainFile_err (lib E) (options.SSLPEMKeyFile opts)
  = None /\
  (if nonempty (options.SSLPEMKeyPassword opts)
   then openssl.UsePrivateKeyFileWithPassword_err (lib E)
          (options.SSLPEMKeyFile opts) openssl.FiletypePEM
          (options.SSLPEMKeyPassword opts)
   else openssl.UsePrivateKeyFile_err (lib E)
          (options.SSLPEMKeyFile opts) openssl.FiletypePEM) = None /\
  openssl.CheckPrivateKey_err (lib E) (pem_ctx E opts) = None.

(** If a CA file is given, its two loads succeed. *)
Definition ca_step_passes (E : Env) (opts : options.ToolOptions) : Prop :=
  nonempty (options.SSLCAFile opts) = true ->
  (exists l, openssl.LoadClientCAFile_res (lib E) (options.SSLCAFile opts)
             = inl l) /\
  openssl.LoadVerifyLocations_err (lib E) (options.SSLCAFile opts) "" = None.

(** If a CRL file is given, the lookup can be registered. *)
Definition crl_step_passes (E : Env) (opts : options.ToolOptions) : Prop :=
  nonempty (options.SSLCRLFile opts) = true ->
  openssl.AddLookup_err (lib E) (crl_store E opts) openssl.LookupFile = None.

(** The environment with the package variables replaced. *)
Definition with_vars (v : PackageVars) (E : Env) : Env :=
  {| lib := lib E; session_layer := session_layer E; helpers := helpers E;
     vars := v |}.

(** An address resolver that yields two servers. *)
Definition two_host_helpers : Helpers :=
  {| CreateConnectionAddrs :=
       fun _ port => ["a.example.net:" ++ port; "b.example.net:" ++ port];
     GetAuthenticationDatabase :=
       fun opts => options.Source (options.auth opts) |}.

(** [sample_env] with that resolver. *)
Definition two_host_env (missing down : list string) : Env :=
  {| lib := sample_lib missing down;
     session_layer := sample_session_layer;
     helpers := two_host_helpers;
     vars := declared_vars |}.

(** The dial info [Configure] builds from [full_opts] with that resolver. *)
Definition two_host_dialInfo : mgo.DialInfo :=
  {| mgo.Addrs := ["a.example.net:27017"; "b.example.net:27017"];
     mgo.Timeout := 3000000000;
     mgo.DialServer := {| captured_flags := 0 |};
     mgo.Username := ""; mgo.Password := "";
     mgo.Source := ""; mgo.Mechanism := "" |}.

(** * Properties *)

(** Symbolic execution: unfold the program down to the oracles' answers and
    the tests on the options, and split on those, innermost first. *)
Ltac red_go :=
  cbv beta iota zeta delta
    [setupCtx
     FIPSModeSet NewCtxWithVersion SetOptions SetCipherList
     UseCertificateChainFile UsePrivateKeyFileWithPassword UsePrivateKeyFile
     CheckPrivateKey SetMode SetSessionCacheMode LoadClientCAFile
     SetClientCAList LoadVerifyLocations SetVerify GetCertificateStore
     store_SetFlags X509LookupFile store_AddLookup lookup_LoadCRLFile
     bind bindE ret ok fail check wrap checkC issue fst snd];
  cbn [self calls Z.lor
       openssl.new_ctx openssl.empty_store
       openssl.with_options openssl.with_cipher_list
       openssl.with_cert_chain_file openssl.with_private_key
       openssl.with_mode openssl.with_session_cache_mode
       openssl.with_client_ca_list openssl.with_verify openssl.with_store
       openssl.store_with_flags openssl.store_with_verify_locations
       openssl.store_with_lookups
       openssl.ctx_version openssl.ctx_options openssl.ctx_cipher_list
       openssl.ctx_cert_chain_file openssl.ctx_private_key openssl.ctx_mode
       openssl.ctx_session_cache_mode openssl.ctx_client_ca_list
       openssl.ctx_verify openssl.ctx_store
       openssl.store_flags openssl.store_verify_locations
       openssl.store_lookups].

Ltac split_answer :=
  match goal with
  | |- context [match ?x with _ => _ end] =>
      lazymatch x with
      | context [match _ with _ => _ end] => fail
      | _ => destruct x eqn:?
      end
  end.

Ltac run_go := red_go; repeat (split_answer; red_go).

Lemma nonempty_true (x : string) : x <> "" -> nonempty x = true.
Proof.
  intro H. unfold nonempty. destruct (String.eqb_spec x ""); [contradiction|].
  reflexivity.
Qed.

Lemma nonempty_false (x : string) : x = "" -> nonempty x = false.
Proof. intros ->. reflexivity. Qed.

Section Dialing.
Variable E : Env.

Lemma dialer_calls (d : dialerFunc) (a : mgo.ServerAddr) (s : State) :
  calls (snd (dialer E d a s))
  = (calls s ++ [openssl.CDial "tcp" (mgo.String a) (ctx (self s))
                   (captured_flags d)])%list.
Proof. reflexivity. Qed.

Lemma dialer_dialInfo (d : dialerFunc) (a : mgo.ServerAddr) (s : State) :
  dialInfo (self (snd (dialer E d a s))) = dialInfo (self s).
Proof. reflexivity. Qed.

Lemma dialer_ctx (d : dialerFunc) (a : mgo.ServerAddr) (s : State) :
  ctx (self (snd (dialer E d a s))) = ctx (self s).
Proof. reflexivity. Qed.

Lemma dialer_dialError (d : dialerFunc) (a : mgo.ServerAddr) (s : State) :
  dialError (self (snd (dialer E d a s)))
  = match fst (dialer E d a s) with inl _ => None | inr e => Some e end.
Proof. reflexivity. Qed.

Lemma dial_each_cons (d : dialerFunc) (a : mgo.ServerAddr)
    (rest : list mgo.ServerAddr) (s : State) :
  dial_each E d (a :: rest) s
  = (fst (dialer E d a s) :: fst (dial_each E d rest (snd (dialer E d a s))),
     snd (dial_each E d rest (snd (dialer E d a s)))).
Proof.
  cbn [dial_each]. unfold bind at 1.
  destruct (dialer E d a s) as [r s1]. unfold bind at 1. cbn [fst snd].
  destruct (dial_each E d rest s1) as [rs s2]. reflexivity.
Qed.

Lemma dial_each_ctx (d : dialerFunc) (addrs : list mgo.ServerAddr) :
  forall s, ctx (self (snd (dial_each E d addrs s))) = ctx (self s).
Proof.
  induction addrs as [|a rest IH]; intro s; [reflexivity|].
  rewrite dial_each_cons. cbn [snd]. now rewrite IH.
Qed.

Lemma dial_each_dialInfo (d : dialerFunc) (addrs : list mgo.ServerAddr) :
  forall s, dialInfo (self (snd (dial_each E d addrs s))) = dialInfo (self s).
Proof.
  induction addrs as [|a rest IH]; intro s; [reflexivity|].
  rewrite dial_each_cons. cbn [snd]. now rewrite IH.
Qed.

(** Every dial of a session-layer run goes through [openssl.Dial] with the
    connector's context and the flags the closure captured. *)
Lemma dial_each_calls (d : dialerFunc) (addrs : list mgo.ServerAddr) :
  forall s,
    calls (snd (dial_each E d addrs s))
    = (calls s
       ++ map (fun a => openssl.CDial "tcp" (mgo.String a) (ctx (self s))
                          (captured_flags d)) addrs)%list.
Proof.
  induction addrs as [|a rest IH]; intro s.
  - cbn. now rewrite app_nil_r.
  - rewrite dial_each_cons. cbn [snd]. rewrite IH, dialer_calls, dialer_ctx.
    now rewrite <- app_assoc.
Qed.

Lemma last_answer_some {A} (r : A) (rs : list A) :
  exists x, last (map Some (r :: rs)) None = Some x.
Proof.
  revert r. induction rs as [|r' rs IH]; intro r.
  - now exists r.
  - destruct (IH r') as [x Hx]. exists x. exact Hx.
Qed.

(** After a run, the recorded dial error is the answer of the last dial of
    the run; a run without dials leaves the record as it was. *)
Lemma dial_each_dialError (d : dialerFunc) (addrs : list mgo.ServerAddr) :
  forall s,
    dialError (self (snd (dial_each E d addrs s)))
    = match last (map Some (fst (dial_each E d addrs s))) None with
      | None => dialError (self s)
      | Some (inl _) => None
      | Some (inr e) => Some e
      end.
Proof.
  induction addrs as [|a rest IH]; intro s; [reflexivity|].
  rewrite dial_each_cons. cbn [snd fst map]. rewrite IH.
  destruct (fst (dial_each E d rest (snd (dialer E d a s)))) as [|r rs] eqn:Hrs.
  - cbn [map last]. rewrite dialer_dialError. reflexivity.
  - destruct (last_answer_some r rs) as [x Hx].
    cbn [map last] in Hx |- *. rewrite Hx. reflexivity.
Qed.

Lemma GetNewSession_calls (s : State) (di : mgo.DialInfo) :
  dialInfo (self s) = Some di ->
  calls (snd (GetNewSession E s))
  = (calls s
     ++ map (fun a => openssl.CDial "tcp" (mgo.String a) (ctx (self s))
                        (captured_flags (mgo.DialServer di)))
          (mgo.dial_plan (session_layer E) di))%list.
Proof.
  intro Hdi. unfold GetNewSession, bind, get_self, DialWithInfo at 1.
  rewrite Hdi. unfold bind at 1.
  pose proof (dial_each_calls (mgo.DialServer di)
                (mgo.dial_plan (session_layer E) di) s) as Hc.
  destruct (dial_each E (mgo.DialServer di)
              (mgo.dial_plan (session_layer E) di) s) as [rs s1].
  cbn [snd] in Hc. unfold ret.
  destruct (mgo.finish (session_layer E) di rs); cbn [snd]; [exact Hc|].
  destruct (dialError (self s1)); exact Hc.
Qed.

Lemma GetNewSession_dialInfo (s : State) :
  dialInfo (self (snd (GetNewSession E s))) = dialInfo (self s).
Proof.
  unfold GetNewSession, bind, get_self, DialWithInfo at 1.
  destruct (dialInfo (self s)) as [di|] eqn:Hdi.
  - unfold bind at 1.
    pose proof (dial_each_dialInfo (mgo.DialServer di)
                  (mgo.dial_plan (session_layer E) di) s) as Hc.
    destruct (dial_each E (mgo.DialServer di)
                (mgo.dial_plan (session_layer E) di) s) as [rs s1].
    cbn [snd] in Hc. unfold ret. rewrite <- Hdi.
    destruct (mgo.finish (session_layer E) di rs); cbn [snd]; [exact Hc|].
    destruct (dialError (self s1)); exact Hc.
  - unfold ret. destruct (mgo.nil_info (session_layer E)) as [[?|?]|?];
      cbn; try assumption.
    destruct (dialError (self s)); cbn; assumption.
Qed.


Lemma append_empty_r (a : string) : a ++ "" = a.
Proof. induction a as [|ch a IH]; cbn; [reflexivity | now rewrite IH]. Qed.

Lemma append_assoc (a b c : string) : (a ++ b) ++ c = a ++ b ++ c.
Proof. induction a as [|ch a IH]; cbn; [reflexivity | now rewrite IH]. Qed.

Lemma contains_prefix (a b : string) : contains a (a ++ b).
Proof. exists "", b. reflexivity. Qed.

Lemma contains_suffix (a b : string) : contains b (a ++ b).
Proof. exists a, "". now rewrite append_empty_r. Qed.

(** [GetNewSession] on a configured connector, in terms of the session
    layer's run. *)
Lemma GetNewSession_configured (s : State) (di : mgo.DialInfo) :
  dialInfo (self s) = Some di ->
  GetNewSession E s
  = let run := dial_each E (mgo.DialServer di)
                 (mgo.dial_plan (session_layer E) di) s in
    (match mgo.finish (session_layer E) di (fst run) with
     | inl session => Returned (inl session)
     | inr err =>
         match dialError (self (snd run)) with
         | Some e => Returned (inr (err ++ ", openssl error: " ++ e))
         | None => Returned (inr err)
         end
     end, snd run).
Proof.
  intro Hdi. unfold GetNewSession, bind, get_self.
  rewrite Hdi. unfold DialWithInfo, bind, ret. cbv zeta.
  destruct (dial_each E (mgo.DialServer di)
              (mgo.dial_plan (session_layer E) di) s) as [rs s1].
  cbn [fst snd].
  destruct (mgo.finish (session_layer E) di rs); [reflexivity|].
  destruct (dialError (self s1)); reflexivity.
Qed.

(** [GetNewSession] on a connector without dial info. *)
Lemma GetNewSession_nil_info (s : State) :
  dialInfo (self s) = None ->
  dialError (self s) = None ->
  GetNewSession E s = (mgo.nil_info (session_layer E), s).
Proof.
  intros Hdi Herr. unfold GetNewSession, bind, get_self.
  rewrite Hdi. unfold DialWithInfo, ret.
  destruct (mgo.nil_info (session_layer E)) as [[session|err]|msg];
    try reflexivity.
  rewrite Herr. reflexivity.
Qed.

End Dialing.

Section Configuring.
Variable E : Env.

(** [Configure] returns [nil] exactly when the builder returns a context. *)
Lemma Configure_nil_iff (opts : options.ToolOptions) (s : State) :
  fst (Configure E opts s) = None
  <-> exists c, fst (setupCtx E opts s) = inl c.
Proof.
  unfold Configure, bind, set_ctx, set_dialInfo, ret.
  destruct (setupCtx E opts s) as [[c|e] s1]; cbn [fst]; split.
  - intros _. now exists c.
  - reflexivity.
  - discriminate.
  - intros [c Hc]. discriminate Hc.
Qed.

(** What a successful [Configure] stores in the connector. *)
Lemma Configure_nil_self (opts : options.ToolOptions) (s : State) :
  fst (Configure E opts s) = None ->
  exists c,
    fst (setupCtx E opts s) = inl c /\
    self (snd (Configure E opts s))
    = {| dialInfo :=
           Some {| mgo.Addrs :=
                     CreateConnectionAddrs (helpers E)
                       (options.Host opts) (options.Port opts);
                   mgo.Timeout := DefaultSSLDialTimeout (vars E);
                   mgo.DialServer :=
                     {| captured_flags :=
                          if options.SSLAllowInvalidCert opts
                             || options.SSLAllowInvalidHost opts
                             || String.eqb (options.SSLCAFile opts) ""
                          then openssl.InsecureSkipHostVerification (lib E)
                          else 0 |};
                   mgo.Username := options.Username (options.auth opts);
                   mgo.Password := options.Password (options.auth opts);
                   mgo.Source := GetAuthenticationDatabase (helpers E) opts;
                   mgo.Mechanism := options.Mechanism (options.auth opts) |};
         dialError := dialError (self (snd (setupCtx E opts s)));
         ctx := Some c |}.
Proof.
  unfold Configure, bind, set_ctx, set_dialInfo, ret.
  destruct (setupCtx E opts s) as [[c|e] s1]; cbn [fst]; [|discriminate].
  intros _. exists c. split; reflexivity.
Qed.

(** What a failed [Configure] leaves in the connector: the context is reset
    to [nil], the dial info and the recorded dial error stay. *)
Lemma Configure_err_self (opts : options.ToolOptions) (s : State) (e : error) :
  fst (Configure E opts s) = Some e ->
  self (snd (Configure E opts s))
  = {| dialInfo := dialInfo (self (snd (setupCtx E opts s)));
       dialError := dialError (self (snd (setupCtx E opts s)));
       ctx := None |}.
Proof.
  unfold Configure, bind, set_ctx, set_dialInfo, ret.
  destruct (setupCtx E opts s) as [[c|e'] s1]; cbn [fst]; [discriminate|].
  reflexivity.
Qed.

(** The builder does not touch the connector. *)
Lemma setupCtx_self (opts : options.ToolOptions) (s : State) :
  self (snd (setupCtx E opts s)) = self s.
Proof. run_go; reflexivity. Qed.

Lemma land_lor_l (a b : Z) : Z.land (Z.lor a b) a = a.
Proof.
  apply Z.bits_inj'. intros n _. rewrite Z.land_spec, Z.lor_spec.
  destruct (Z.testbit a n), (Z.testbit b n); reflexivity.
Qed.

Lemma land_lor_r (a b : Z) : Z.land (Z.lor a b) b = b.
Proof. rewrite Z.lor_comm. apply land_lor_l. Qed.

(** The settings every built context carries. *)
Lemma setupCtx_fixed_settings
    (opts : options.ToolOptions) (s : State) (c : openssl.Ctx) :
  fst (setupCtx E opts s) = inl c ->
  openssl.ctx_options c
  = Z.lor (openssl.OpAll (lib E)) (openssl.NoSSLv2 (lib E)) /\
  openssl.ctx_cipher_list c = Some cipher_policy /\
  openssl.ctx_mode c = openssl.AutoRetry (lib E) /\
  openssl.ctx_session_cache_mode c = Some openssl.SessionCacheOff.
Proof.
  run_go; intro H; try discriminate H; injection H as <-;
    repeat split; reflexivity.
Qed.

(** The calls every successful build issues, whatever the options. *)
Lemma setupCtx_fixed_calls
    (opts : options.ToolOptions) (s : State) (c : openssl.Ctx) :
  fst (setupCtx E opts s) = inl c ->
  exists new,
    calls (snd (setupCtx E opts s)) = (calls s ++ new)%list /\
    In (openssl.CSetOptions
          (Z.lor (openssl.OpAll (lib E)) (openssl.NoSSLv2 (lib E)))) new /\
    In (openssl.CSetCipherList cipher_policy) new /\
    In (openssl.CSetMode (openssl.AutoRetry (lib E))) new /\
    In (openssl.CSetSessionCacheMode openssl.SessionCacheOff) new.
Proof.
  run_go; intro H; try discriminate H; clear H;
    repeat rewrite <- app_assoc; cbn [app];
    (eexists; split; [reflexivity|]);
    repeat split; cbn [In]; tauto.
Qed.


(** Locating a run of calls inside a trace. *)
Lemma run_here {A} (l rest : list A) : l = rest -> l = ([] ++ rest)%list.
Proof. intro H. exact H. Qed.

Lemma run_later {A} (a : A) (l pre rest : list A) :
  l = (pre ++ rest)%list -> a :: l = ((a :: pre) ++ rest)%list.
Proof. intros ->. reflexivity. Qed.

(** Flipping allow-invalid-cert changes nothing in a build except the
    argument of [SetVerify]. *)
Lemma setupCtx_allow_invalid_cert_frame
    (opts : options.ToolOptions) (s : State) (b : bool) :
  erase_ctx_verify (fst (setupCtx E (with_SSLAllowInvalidCert b opts) s))
  = erase_ctx_verify (fst (setupCtx E opts s)) /\
  map erase_verify (calls (snd (setupCtx E (with_SSLAllowInvalidCert b opts) s)))
  = map erase_verify (calls (snd (setupCtx E opts s))).
Proof.
  unfold setupCtx.
  cbn [with_SSLAllowInvalidCert options.SSLFipsMode options.SSLPEMKeyFile
       options.SSLPEMKeyPassword options.SSLCAFile options.SSLCRLFile
       options.SSLAllowInvalidCert].
  run_go; try discriminate; split; try reflexivity;
    repeat rewrite map_app; reflexivity.
Qed.


(** The builder never looks at what [SetCipherList] answers. *)
Lemma setupCtx_SetCipherList_err_frame
    (f : string -> option error) (opts : options.ToolOptions) (s : State) :
  setupCtx (with_SetCipherList_err f E) opts s = setupCtx E opts s.
Proof. reflexivity. Qed.

End Configuring.

(** Find a run of calls in a concrete trace. *)
Ltac locate_run :=
  repeat first [ apply run_here; reflexivity | apply run_later ].

Section Connector.
Variable E : Env.


(** C7. Every context the builder returns has, whatever the options are:
    the option bits of [OpAll] (all bug workarounds) and [NoSSLv2] (SSLv2
    off) set; the cipher policy HIGH:!EXPORT:!aNULL@STRENGTH handed to the
    library; the [AutoRetry] mode set; session caching off.  The four calls
    are issued on every successful build, and two builds from any two option
    records agree on the four settings. *)
Theorem setupCtx_unconditional_settings
    (opts : options.ToolOptions) (s : State) (c : openssl.Ctx) :
  fst (setupCtx E opts s) = inl c ->
  (Z.land (openssl.ctx_options c) (openssl.OpAll (lib E))
   = openssl.OpAll (lib E) /\
   Z.land (openssl.ctx_options c) (openssl.NoSSLv2 (lib E))
   = openssl.NoSSLv2 (lib E)) /\
  openssl.ctx_cipher_list c = Some "HIGH:!EXPORT:!aNULL@STRENGTH" /\
  Z.land (openssl.ctx_mode c) (openssl.AutoRetry (lib E))
  = openssl.AutoRetry (lib E) /\
  openssl.ctx_session_cache_mode c = Some openssl.SessionCacheOff /\
  (exists new,
      calls (snd (setupCtx E opts s)) = (calls s ++ new)%list /\
      In (openssl.CSetOptions
            (Z.lor (openssl.OpAll (lib E)) (openssl.NoSSLv2 (lib E)))) new /\
      In (openssl.CSetCipherList "HIGH:!EXPORT:!aNULL@STRENGTH") new /\
      In (openssl.CSetMode (openssl.AutoRetry (lib E))) new /\
      In (openssl.CSetSessionCacheMode openssl.SessionCacheOff) new) /\
  (forall (opts' : options.ToolOptions) (s' : State) (c' : openssl.Ctx),
      fst (setupCtx E opts' s') = inl c' ->
      openssl.ctx_options c' = openssl.ctx_options c /\
      openssl.ctx_cipher_list c' = openssl.ctx_cipher_list c /\
      openssl.ctx_mode c' = openssl.ctx_mode c /\
      openssl.ctx_session_cache_mode c'
      = openssl.ctx_session_cache_mode c).
Proof.
  intro H.
  destruct (setupCtx_fixed_settings E opts s c H) as (Ho & Hc & Hm & Hs).
  split; [|split; [|split; [|split; [|split]]]].
  - rewrite Ho. split; [apply land_lor_l | apply land_lor_r].
  - exact Hc.
  - rewrite Hm. apply Z.land_diag.
  - exact Hs.
  - exact (setupCtx_fixed_calls E opts s c H).
  - intros opts' s' c' H'.
    destruct (setupCtx_fixed_settings E opts' s' c' H') as (Ho' & Hc' & Hm' & Hs').
    rewrite Ho, Ho', Hc, Hc', Hm, Hm', Hs, Hs'. repeat split.
Qed.

(** C10. With an empty CA-file path the builder never sets the peer
    verification mode: no [SetVerify] call is issued, whatever the other
    options (allow-invalid-cert included) and whether or not the build
    succeeds, and a returned context still has the verification mode of a
    freshly created context, the library default. *)
Theorem setupCtx_no_verify_without_CA
    (opts : options.ToolOptions) (s : State) :
  options.SSLCAFile opts = "" ->
  (exists new,
      calls (snd (setupCtx E opts s)) = (calls s ++ new)%list /\
      forallb (fun c => negb (is_SetVerify c)) new = true) /\
  (forall c,
      fst (setupCtx E opts s) = inl c ->
      openssl.ctx_verify c
      = openssl.ctx_verify (openssl.new_ctx openssl.AnyVersion) /\
      openssl.ctx_verify c = None).
Proof.
  intro Hca. unfold setupCtx. rewrite (nonempty_false _ Hca). split.
  - run_go; repeat rewrite <- app_assoc; cbn [app];
      (eexists; split; reflexivity).
  - intro c. run_go; intro H; try discriminate H; injection H as <-;
      split; reflexivity.
Qed.

(** C4. With a non-empty CA-file path, a build that returns a context has
    set the peer verification mode right after loading the CA file (client
    CA names, then verify locations): to [VerifyNone] when
    allow-invalid-cert is set and to [VerifyPeer] otherwise.  This is the
    only place where allow-invalid-cert matters: for any options, replacing
    the flag by any value leaves the outcome of the build and the calls it
    issues unchanged, up to the argument of [SetVerify] and the
    verification mode of the returned context. *)
Theorem setupCtx_verify_mode (opts : options.ToolOptions) (s : State) :
  options.SSLCAFile opts <> "" ->
  (forall c,
      fst (setupCtx E opts s) = inl c ->
      openssl.ctx_verify c
      = Some (if options.SSLAllowInvalidCert opts
              then openssl.VerifyNone else openssl.VerifyPeer) /\
      exists pre calist post,
        calls (snd (setupCtx E opts s))
        = (pre
           ++ [openssl.CLoadClientCAFile (options.SSLCAFile opts);
               openssl.CSetClientCAList calist;
               openssl.CLoadVerifyLocations (options.SSLCAFile opts) "";
               openssl.CSetVerify
                 (if options.SSLAllowInvalidCert opts
                  then openssl.VerifyNone else openssl.VerifyPeer)]
           ++ post)%list) /\
  (forall b : bool,
      erase_ctx_verify (fst (setupCtx E (with_SSLAllowInvalidCert b opts) s))
      = erase_ctx_verify (fst (setupCtx E opts s)) /\
      map erase_verify
        (calls (snd (setupCtx E (with_SSLAllowInvalidCert b opts) s)))
      = map erase_verify (calls (snd (setupCtx E opts s)))).
Proof.
  intro Hca. split; [|intro b; apply setupCtx_allow_invalid_cert_frame].
  intro c. unfold setupCtx. rewrite (nonempty_true _ Hca).
  run_go; intro H; try discriminate H; injection H as <-;
    (split; [reflexivity|]);
    repeat rewrite <- app_assoc; cbn [app];
    (eexists (calls s ++ _)%list, _, _; rewrite <- app_assoc; f_equal;
     locate_run).
Qed.

(** C5. Once the FIPS mode is set and the context created, a non-empty PEM
    key-file path makes the builder, right after the cipher list: load the
    file as certificate chain; load the private key from the same file, with
    the password when the password is non-empty and without one otherwise;
    check that key and certificate go together.  The first of the three
    that fails ends the build there: no further call is issued and the
    error, prefixed with the name of the step, is returned in place of a
    context.  If all three succeed the build goes on to [SetMode].  With an
    empty PEM key-file path none of these calls is issued. *)
Theorem setupCtx_pem_key_file (opts : options.ToolOptions) (s : State) :
  openssl.FIPSModeSet_err (lib E) (options.SSLFipsMode opts) = None ->
  openssl.NewCtxWithVersion_err (lib E) openssl.AnyVersion = None ->
  let pem := options.SSLPEMKeyFile opts in
  let pw := options.SSLPEMKeyPassword opts in
  let before :=
    [openssl.CFIPSModeSet (options.SSLFipsMode opts);
     openssl.CNewCtxWithVersion openssl.AnyVersion;
     openssl.CSetOptions
       (Z.lor (openssl.OpAll (lib E)) (openssl.NoSSLv2 (lib E)));
     openssl.CSetCipherList "HIGH:!EXPORT:!aNULL@STRENGTH"] in
  let cert_call := openssl.CUseCertificateChainFile pem in
  let cert_err := openssl.UseCertificateChainFile_err (lib E) pem in
  let key_call :=
    if nonempty pw
    then openssl.CUsePrivateKeyFileWithPassword pem openssl.FiletypePEM pw
    else openssl.CUsePrivateKeyFile pem openssl.FiletypePEM in
  let key_err :=
    if nonempty pw
    then openssl.UsePrivateKeyFileWithPassword_err (lib E)
           pem openssl.FiletypePEM pw
    else openssl.UsePrivateKeyFile_err (lib E) pem openssl.FiletypePEM in
  let check_err :=
    openssl.CheckPrivateKey_err (lib E)
      (openssl.with_private_key
         (Some (pem, openssl.FiletypePEM,
                if nonempty pw then Some pw else None))
         (openssl.with_cert_chain_file (Some pem)
            (openssl.with_cipher_list (Some "HIGH:!EXPORT:!aNULL@STRENGTH")
               (openssl.with_options
                  (Z.lor (openssl.OpAll (lib E)) (openssl.NoSSLv2 (lib E)))
                  (openssl.new_ctx openssl.AnyVersion))))) in
  (pem <> "" ->
   (forall e,
       cert_err = Some e ->
       setupCtx E opts s
       = (inr ("UseCertificateChainFile: " ++ e),
          {| self := self s;
             calls := (calls s ++ before ++ [cert_call])%list |})) /\
   (forall e,
       cert_err = None -> key_err = Some e ->
       setupCtx E opts s
       = (inr ("UsePrivateKeyFile: " ++ e),
          {| self := self s;
             calls := (calls s ++ before ++ [cert_call; key_call])%list |})) /\
   (forall e,
       cert_err = None -> key_err = None -> check_err = Some e ->
       setupCtx E opts s
       = (inr ("CheckPrivateKey: " ++ e),
          {| self := self s;
             calls := (calls s ++ before
                         ++ [cert_call; key_call;
                             openssl.CCheckPrivateKey])%list |})) /\
   (cert_err = None -> key_err = None -> check_err = None ->
    exists rest,
      calls (snd (setupCtx E opts s))
      = (calls s ++ before
           ++ [cert_call; key_call; openssl.CCheckPrivateKey;
               openssl.CSetMode (openssl.AutoRetry (lib E))]
           ++ rest)%list)) /\
  (pem = "" ->
   exists new,
     calls (snd (setupCtx E opts s)) = (calls s ++ new)%list /\
     forallb (fun c => negb (is_pem_call c)) new = true).
Proof.
  intros Hfips Hnew pem pw before cert_call cert_err key_call key_err check_err.
  subst pem pw before cert_call cert_err key_call key_err check_err.
  split.
  - intro Hpem. unfold setupCtx. rewrite (nonempty_true _ Hpem).
    revert Hfips Hnew.
    repeat split;
      run_go; intros; try discriminate;
      repeat match goal with
        | H : Some _ = Some _ |- _ => injection H as H; subst
        end;
      repeat rewrite <- app_assoc; cbn [app];
      try reflexivity;
      (eexists; reflexivity).
  - intro Hpem. unfold setupCtx. rewrite (nonempty_false _ Hpem).
    run_go; repeat rewrite <- app_assoc; cbn [app];
      (eexists; split; reflexivity).
Qed.

(** C9. The value [SetCipherList] returns is dropped: replacing the
    binding's answer to that call by any other answer, failure included,
    changes neither what [Configure] returns nor the state it leaves; in
    particular a [Configure] that returns [nil] when the library accepts the
    cipher list returns [nil] when the library rejects it. *)
Theorem Configure_ignores_cipher_list_result
    (f : string -> option error) (opts : options.ToolOptions) (s : State) :
  Configure (with_SetCipherList_err f E) opts s = Configure E opts s /\
  (forall e : error,
      fst (Configure (with_SetCipherList_err (fun _ => None) E) opts s) = None
      <-> fst (Configure (with_SetCipherList_err (fun _ => Some e) E) opts s)
          = None).
Proof.
  assert (Hframe : forall g,
             Configure (with_SetCipherList_err g E) opts s
             = Configure E opts s).
  { intro g. unfold Configure, bind.
    rewrite (setupCtx_SetCipherList_err_frame E g opts s). reflexivity. }
  split; [apply Hframe|].
  intro e. rewrite !Hframe. reflexivity.
Qed.

(** C3 (amended). In a dial attempt in which the session layer returns an
    error [err]: when the last dial the attempt performed failed with [e],
    [GetNewSession] returns the message made of [err], then
    ", openssl error: ", then [e], which contains both; when the last dial
    the attempt performed succeeded, or the attempt performed no dial and
    the connector held no recorded dial error, [err] is returned as it
    is. *)
Theorem GetNewSession_error_enrichment
    (s : State) (di : mgo.DialInfo) (err : error) :
  dialInfo (self s) = Some di ->
  let run := dial_each E (mgo.DialServer di)
               (mgo.dial_plan (session_layer E) di) s in
  mgo.finish (session_layer E) di (fst run) = inr err ->
  (forall e,
      last (map Some (fst run)) None = Some (inr e) ->
      fst (GetNewSession E s)
      = Returned (inr (err ++ ", openssl error: " ++ e)) /\
      contains err (err ++ ", openssl error: " ++ e) /\
      contains e (err ++ ", openssl error: " ++ e)) /\
  (forall conn,
      last (map Some (fst run)) None = Some (inl conn) ->
      fst (GetNewSession E s) = Returned (inr err)) /\
  (fst run = [] ->
   dialError (self s) = None ->
   fst (GetNewSession E s) = Returned (inr err)).
Proof.
  intros Hdi run Hfin. rewrite (GetNewSession_configured E s di Hdi).
  fold run. cbv zeta. cbn [fst]. rewrite Hfin.
  pose proof (dial_each_dialError E (mgo.DialServer di)
                (mgo.dial_plan (session_layer E) di) s) as Hrec.
  fold run in Hrec. rewrite Hrec.
  split; [|split].
  - intros e He. rewrite He. split; [reflexivity|]. split.
    + apply contains_prefix.
    + rewrite <- append_assoc. apply contains_suffix.
  - intros conn He. rewrite He. reflexivity.
  - intros Hnil Hnone. rewrite Hnil. cbn [map last]. rewrite Hnone.
    reflexivity.
Qed.

(** C6 (amended). [GetNewSession] makes no check of its own on a connector
    that holds no dial info and no recorded dial error, as is the case
    when [Configure] was never called or has only ever failed: it hands the
    [nil] dial info to the session layer and yields exactly the session
    layer's outcome for it, leaving the state as it was, so that no
    [openssl.Dial] is issued.  A [Configure] that fails on such a connector
    leaves it such a connector. *)
Theorem GetNewSession_without_dial_info (s : State) :
  dialInfo (self s) = None ->
  dialError (self s) = None ->
  GetNewSession E s = (mgo.nil_info (session_layer E), s) /\
  calls (snd (GetNewSession E s)) = calls s /\
  (forall (opts : options.ToolOptions) (e : error),
      fst (Configure E opts s) = Some e ->
      dialInfo (self (snd (Configure E opts s))) = None /\
      dialError (self (snd (Configure E opts s))) = None /\
      GetNewSession E (snd (Configure E opts s))
      = (mgo.nil_info (session_layer E), snd (Configure E opts s))).
Proof.
  intros Hdi Herr.
  pose proof (GetNewSession_nil_info E s Hdi Herr) as Hget.
  split; [exact Hget|]. split; [now rewrite Hget|].
  intros opts e Hfail.
  pose proof (Configure_err_self E opts s e Hfail) as Hself.
  rewrite setupCtx_self, Hdi, Herr in Hself.
  assert (Hdi' : dialInfo (self (snd (Configure E opts s))) = None)
    by now rewrite Hself.
  assert (Herr' : dialError (self (snd (Configure E opts s))) = None)
    by now rewrite Hself.
  split; [exact Hdi'|]. split; [exact Herr'|].
  exact (GetNewSession_nil_info E _ Hdi' Herr').
Qed.

End Connector.

(** ** The program on concrete inputs *)

(** C2. The CRL file "missing.crl" cannot be loaded (the binding answers
    [LoadCRLFile] with an error), all earlier steps succeed, and yet
    [Configure] returns [nil]: the builder issues [LoadCRLFile] as its last
    call and drops the answer, so the connector is configured, with
    revocation checking switched on and no CRL loaded, and can be dialed. *)
Theorem Configure_drops_LoadCRLFile_error :
  let E := sample_env ["missing.crl"] [] in
  openssl.LoadCRLFile_err (lib E) (options.SSLCRLFile crl_opts)
  = Some "no such file: missing.crl" /\
  Configure E crl_opts initial_state
  = (None,
     {| self :=
          {| dialInfo :=
               Some {| mgo.Addrs := ["db.example.net:27017"];
                       mgo.Timeout := 3000000000;
                       mgo.DialServer :=
                         {| captured_flags :=
                              openssl.InsecureSkipHostVerification (lib E) |};
                       mgo.Username := ""; mgo.Password := "";
                       mgo.Source := ""; mgo.Mechanism := "" |};
             dialError := None;
             ctx :=
               Some
                 (openssl.with_store
                    {| openssl.store_flags := openssl.CRLCheck (lib E);
                       openssl.store_verify_locations := [];
                       openssl.store_lookups := [openssl.LookupFile] |}
                    (openssl.with_session_cache_mode
                       (Some openssl.SessionCacheOff)
                       (openssl.with_mode (openssl.AutoRetry (lib E))
                          (openssl.with_cipher_list (Some cipher_policy)
                             (openssl.with_options
                                (Z.lor (openssl.OpAll (lib E))
                                   (openssl.NoSSLv2 (lib E)))
                                (openssl.new_ctx openssl.AnyVersion)))))) |};
        calls :=
          [openssl.CFIPSModeSet false;
           openssl.CNewCtxWithVersion openssl.AnyVersion;
           openssl.CSetOptions
             (Z.lor (openssl.OpAll (lib E)) (openssl.NoSSLv2 (lib E)));
           openssl.CSetCipherList cipher_policy;
           openssl.CSetMode (openssl.AutoRetry (lib E));
           openssl.CSetSessionCacheMode openssl.SessionCacheOff;
           openssl.CGetCertificateStore;
           openssl.CStoreSetFlags (openssl.CRLCheck (lib E));
           openssl.CX509LookupFile;
           openssl.CAddLookup openssl.LookupFile;
           openssl.CLoadCRLFile "missing.crl"] |}) /\
  (exists session,
      fst (GetNewSession E (snd (Configure E crl_opts initial_state)))
      = Returned (inl session)).
Proof.
  cbv zeta. split; [reflexivity|]. split; [reflexivity|].
  eexists. reflexivity.
Qed.

(** C6, as stated, fails.  On the zero connector [GetNewSession] hands the
    [nil] dial info to the session layer, which panics on it: nothing is
    returned, so no error is.  And on a connector that was configured once
    and on which a second [Configure] then failed, the dial info of the
    first [Configure] is still in place: [GetNewSession] dials, with a
    [nil] context, and returns a session. *)
Lemma GetNewSession_unconfigured_counterexample :
  (let E := sample_env [] [] in
   fst (GetNewSession E initial_state)
   = Panicked "runtime error: invalid memory address or nil pointer dereference"
   /\ ~ (exists e : error,
            fst (GetNewSession E initial_state) = Returned (inr e))) /\
  (let E := sample_env ["ca.pem"] [] in
   let s1 := snd (Configure E plain_opts initial_state) in
   let s2 := snd (Configure E full_opts s1) in
   fst (Configure E plain_opts initial_state) = None /\
   fst (Configure E full_opts s1)
   = Some "setupCtx: LoadClientCAFile: no such file: ca.pem" /\
   ctx (self s2) = None /\
   (exists session, fst (GetNewSession E s2) = Returned (inl session)) /\
   calls (snd (GetNewSession E s2))
   = (calls s2
      ++ [openssl.CDial "tcp" "db.example.net:27017" None
            (openssl.InsecureSkipHostVerification (lib E))])%list).
Proof.
  split.
  - cbv zeta. split; [reflexivity|]. intros [e He]. discriminate He.
  - cbv zeta. split; [reflexivity|]. split; [reflexivity|].
    split; [reflexivity|]. split; [eexists; reflexivity | reflexivity].
Qed.

Lemma length_append (a b : string) :
  String.length (a ++ b) = (String.length a + String.length b)%nat.
Proof. induction a as [|ch a IH]; cbn; [reflexivity | now rewrite IH]. Qed.

Lemma contains_length (sub x : string) :
  contains sub x -> (String.length sub <= String.length x)%nat.
Proof.
  intros (pre & post & ->). rewrite !length_append. lia.
Qed.

(** C3, as stated, fails, both ways.  With two servers of which the first
    refuses the connection and the second accepts it, a dial error is
    recorded during the attempt and the session layer returns an error, yet
    the second dial has cleared the record and the error comes back as it
    is, without the dial error.  And when the session layer gives up before
    dialing, on a connector on which an earlier attempt recorded a dial
    error, no dial error is recorded during the attempt, yet the error that
    comes back is not the session layer's: the earlier dial error is
    appended to it. *)
Lemma GetNewSession_error_enrichment_counterexample :
  (let E := two_host_env [] ["a.example.net:27017"] in
   let s := snd (Configure E full_opts initial_state) in
   let e := "SSL errors: connection refused: a.example.net:27017" in
   dialInfo (self s) = Some two_host_dialInfo /\
   fst (dial_each E (mgo.DialServer two_host_dialInfo)
          (mgo.dial_plan (session_layer E) two_host_dialInfo) s)
   = [inr e;
      inl {| openssl.conn_addr := "b.example.net:27017";
             openssl.conn_flags := 0 |}] /\
   dialError
     (self (snd (dialer E (mgo.DialServer two_host_dialInfo)
                   {| mgo.String := "a.example.net:27017" |} s)))
   = Some e /\
   fst (GetNewSession E s) = Returned (inr "no reachable servers") /\
   ~ contains e "no reachable servers") /\
  (let E1 := sample_env [] ["db.example.net:27017"] in
   let E2 := with_session_layer idle_session_layer E1 in
   let s := snd (GetNewSession E1 (snd (Configure E1 full_opts initial_state))) in
   dialInfo (self s) = Some full_dialInfo /\
   fst (dial_each E2 (mgo.DialServer full_dialInfo)
          (mgo.dial_plan (session_layer E2) full_dialInfo) s)
   = [] /\
   mgo.finish (session_layer E2) full_dialInfo [] = inr "no reachable servers" /\
   fst (GetNewSession E2 s)
   = Returned
       (inr "no reachable servers, openssl error: SSL errors: connection refused: db.example.net:27017") /\
   fst (GetNewSession E2 s) <> Returned (inr "no reachable servers")).
Proof.
  split.
  - cbv zeta. split; [reflexivity|]. split; [reflexivity|].
    split; [reflexivity|]. split; [reflexivity|].
    intro H. apply contains_length in H. cbn in H. lia.
  - cbv zeta. split; [reflexivity|]. split; [reflexivity|].
    split; [reflexivity|]. split; [reflexivity|]. discriminate.
Qed.

(** ** The theorems at concrete inputs *)


(** C7 at the plain options. *)
Lemma setupCtx_unconditional_settings_witness :
  exists c,
    fst (setupCtx (sample_env [] []) plain_opts initial_state) = inl c /\
    openssl.ctx_cipher_list c = Some "HIGH:!EXPORT:!aNULL@STRENGTH" /\
    openssl.ctx_session_cache_mode c = Some openssl.SessionCacheOff.
Proof.
  eexists. split; [reflexivity|].
  destruct (setupCtx_unconditional_settings (sample_env [] []) plain_opts
              initial_state _ eq_refl) as (_ & Hc & _ & Hs & _).
  split; [exact Hc | exact Hs].
Defined.

(** C10 at the plain options, which name no CA file. *)
Lemma setupCtx_no_verify_without_CA_witness :
  options.SSLCAFile plain_opts = "" /\
  exists new,
    calls (snd (setupCtx (sample_env [] []) plain_opts initial_state))
    = (calls initial_state ++ new)%list /\
    forallb (fun c => negb (is_SetVerify c)) new = true.
Proof.
  split; [reflexivity|].
  exact (proj1 (setupCtx_no_verify_without_CA (sample_env [] []) plain_opts
                  initial_state eq_refl)).
Defined.

(** C4 at options naming a CA file: the mode is [VerifyPeer]. *)
Lemma setupCtx_verify_mode_witness :
  options.SSLCAFile full_opts <> "" /\
  exists c,
    fst (setupCtx (sample_env [] []) full_opts initial_state) = inl c /\
    openssl.ctx_verify c = Some openssl.VerifyPeer.
Proof.
  assert (Hca : options.SSLCAFile full_opts <> "") by discriminate.
  split; [exact Hca|].
  eexists. split; [reflexivity|].
  exact (proj1 (proj1 (setupCtx_verify_mode (sample_env [] []) full_opts
                         initial_state Hca) _ eq_refl)).
Defined.

(** C5 with a PEM key file that cannot be read. *)
Lemma setupCtx_pem_key_file_witness :
  openssl.FIPSModeSet_err (lib (sample_env ["client.pem"] []))
    (options.SSLFipsMode full_opts) = None /\
  openssl.NewCtxWithVersion_err (lib (sample_env ["client.pem"] []))
    openssl.AnyVersion = None /\
  setupCtx (sample_env ["client.pem"] []) full_opts initial_state
  = (inr "UseCertificateChainFile: no such file: client.pem",
     {| self := zero_connector;
        calls :=
          [openssl.CFIPSModeSet false;
           openssl.CNewCtxWithVersion openssl.AnyVersion;
           openssl.CSetOptions 0x81000BFF;
           openssl.CSetCipherList "HIGH:!EXPORT:!aNULL@STRENGTH";
           openssl.CUseCertificateChainFile "client.pem"] |}).
Proof.
  split; [reflexivity|]. split; [reflexivity|].
  destruct (setupCtx_pem_key_file (sample_env ["client.pem"] []) full_opts
              initial_state eq_refl eq_refl) as [Hpem _].
  assert (Hne : options.SSLPEMKeyFile full_opts <> "") by discriminate.
  exact (proj1 (Hpem Hne) _ eq_refl).
Defined.

(** C3 (amended) against a server that refuses the connection. *)
Lemma GetNewSession_error_enrichment_witness :
  let E := sample_env [] ["db.example.net:27017"] in
  let s := snd (Configure E full_opts initial_state) in
  dialInfo (self s) = Some full_dialInfo /\
  mgo.finish (session_layer E) full_dialInfo
    (fst (dial_each E (mgo.DialServer full_dialInfo)
            (mgo.dial_plan (session_layer E) full_dialInfo) s))
  = inr "no reachable servers" /\
  fst (GetNewSession E s)
  = Returned
      (inr "no reachable servers, openssl error: SSL errors: connection refused: db.example.net:27017").
Proof.
  cbv zeta. split; [reflexivity|]. split; [reflexivity|].
  exact (proj1 (proj1 (GetNewSession_error_enrichment
                         (sample_env [] ["db.example.net:27017"])
                         (snd (Configure
                                 (sample_env [] ["db.example.net:27017"])
                                 full_opts initial_state))
                         full_dialInfo "no reachable servers"
                         eq_refl eq_refl) _ eq_refl)).
Defined.

(** C6 (amended) at the zero connector. *)
Lemma GetNewSession_without_dial_info_witness :
  dialInfo (self initial_state) = None /\
  dialError (self initial_state) = None /\
  GetNewSession (sample_env [] []) initial_state
  = (Panicked "runtime error: invalid memory address or nil pointer dereference",
     initial_state).
Proof.
  split; [reflexivity|]. split; [reflexivity|].
  exact (proj1 (GetNewSession_without_dial_info (sample_env [] [])
                  initial_state eq_refl eq_refl)).
Defined.

(** * Further properties of the builder and of the connector *)

(** Unfold the step conditions down to the binding's answers. *)
Ltac unfold_steps :=
  unfold early_steps_pass, pem_step_passes, ca_step_passes, crl_step_passes,
    pem_ctx, crl_store, cipher_policy.

(** Put the assumed answers of the binding to use. *)
Ltac use_answers :=
  intros;
  repeat match goal with
    | H : ?x = ?x -> _ |- _ => specialize (H eq_refl)
    end;
  repeat match goal with
    | H : _ /\ _ |- _ => destruct H
    | H : exists _, _ |- _ => destruct H
    end;
  cbn [app] in *;
  repeat match goal with
    | H : inr _ = inr _ |- _ => injection H as H; try subst
    | H : inl _ = inl _ |- _ => injection H as H; try subst
    | H : Some _ = Some _ |- _ => injection H as H; try subst
    end;
  try match goal with
    | H1 : ?a = Some ?x, H2 : ?b = Some ?y |- _ =>
        tryif constr_eq x y then fail else
          (assert (x = y)
             by (assert (Hxy : Some x = Some y)
                   by (transitivity a; [symmetry; exact H1 | exact H2]);
                 injection Hxy as Hxy; exact Hxy);
           subst)
    end.

Section Builder.
Variable E : Env.

(** X1. Every build starts by setting the FIPS mode asked for in the
    options, before a context exists.  If the binding refuses the mode, that
    is the only call of the build: the error names the mode ("true" or
    "false") and the binding's error, and [Configure] returns it behind
    "setupCtx: ". *)
Theorem setupCtx_FIPS_first (opts : options.ToolOptions) (s : State) :
  (exists rest,
      calls (snd (setupCtx E opts s))
      = (calls s ++ openssl.CFIPSModeSet (options.SSLFipsMode opts) :: rest)%list) /\
  (forall e,
      openssl.FIPSModeSet_err (lib E) (options.SSLFipsMode opts) = Some e ->
      setupCtx E opts s
      = (inr (("couldn't set FIPS mode to "
                 ++ fmt_bool (options.SSLFipsMode opts) ++ ": ") ++ e),
         {| self := self s;
            calls := (calls s
                      ++ [openssl.CFIPSModeSet (options.SSLFipsMode opts)])%list |}) /\
      fst (Configure E opts s)
      = Some ("setupCtx: couldn't set FIPS mode to "
                ++ fmt_bool (options.SSLFipsMode opts) ++ ": " ++ e)).
Proof.
  split.
  - run_go; repeat rewrite <- app_assoc; cbn [app]; eexists; reflexivity.
  - intros e He.
    assert (Hs : setupCtx E opts s
      = (inr (("couldn't set FIPS mode to "
                 ++ fmt_bool (options.SSLFipsMode opts) ++ ": ") ++ e),
         {| self := self s;
            calls := (calls s
                      ++ [openssl.CFIPSModeSet (options.SSLFipsMode opts)])%list |})).
    { unfold setupCtx. red_go. rewrite He. reflexivity. }
    split; [exact Hs|].
    unfold Configure, bind, set_ctx, ret. rewrite Hs. cbn [fst].
    rewrite !append_assoc. reflexivity.
Qed.

(** X2. If the FIPS mode is accepted and the context cannot be created, the
    build stops after these two calls with the binding's error behind
    "failure creating new openssl context with
    NewCtxWithVersion(AnyVersion): "; [Configure] returns it behind
    "setupCtx: " and leaves the connector without a context. *)
Theorem setupCtx_NewCtx_failure (opts : options.ToolOptions) (s : State) (e : error) :
  openssl.FIPSModeSet_err (lib E) (options.SSLFipsMode opts) = None ->
  openssl.NewCtxWithVersion_err (lib E) openssl.AnyVersion = Some e ->
  setupCtx E opts s
  = (inr ("failure creating new openssl context with NewCtxWithVersion(AnyVersion): " ++ e),
     {| self := self s;
        calls := (calls s
                  ++ [openssl.CFIPSModeSet (options.SSLFipsMode opts);
                      openssl.CNewCtxWithVersion openssl.AnyVersion])%list |}) /\
  fst (Configure E opts s)
  = Some ("setupCtx: failure creating new openssl context with NewCtxWithVersion(AnyVersion): " ++ e) /\
  ctx (self (snd (Configure E opts s))) = None.
Proof.
  intros Hf Hn.
  assert (Hs : setupCtx E opts s
  = (inr ("failure creating new openssl context with NewCtxWithVersion(AnyVersion): " ++ e),
     {| self := self s;
        calls := (calls s
                  ++ [openssl.CFIPSModeSet (options.SSLFipsMode opts);
                      openssl.CNewCtxWithVersion openssl.AnyVersion])%list |})).
  { unfold setupCtx. red_go. rewrite Hf. red_go. rewrite Hn. red_go.
    rewrite <- app_assoc. reflexivity. }
  split; [exact Hs|].
  unfold Configure, bind, set_ctx, ret. rewrite Hs. cbn. split; reflexivity.
Qed.
(** X6. The builder returns a context exactly when: the FIPS mode is
    accepted and the context created; the three calls of the PEM key-file
    step succeed if a PEM key file is given; the two loads of the CA-file
    step succeed if a CA file is given; and the CRL lookup can be registered
    if a CRL file is given.  Neither [SetCipherList] nor [LoadCRLFile] has a
    say. *)
Theorem setupCtx_succeeds_iff (opts : options.ToolOptions) (s : State) :
  (exists c, fst (setupCtx E opts s) = inl c)
  <-> early_steps_pass E opts /\ pem_step_passes E opts
      /\ ca_step_passes E opts /\ crl_step_passes E opts.
Proof.
  unfold_steps.
  run_go;
    (split;
     [ intros [c Hc]; try discriminate Hc; clear Hc;
       repeat split; intros; try discriminate; try reflexivity; eauto
     | intros ((H1 & H2) & H3 & H4 & H5);
       try discriminate;
       repeat match goal with
         | H : ?x = ?x -> _ |- _ => specialize (H eq_refl)
         end;
       repeat match goal with
         | H : _ /\ _ |- _ => destruct H
         | H : exists _, _ |- _ => destruct H
         end;
       cbn [app] in *; try congruence; eauto ]).
Qed.



(** X7. The calls of a successful build, in order: FIPS mode, context,
    options, cipher list; the three PEM key-file calls if a PEM key file is
    given; [SetMode], [SetSessionCacheMode]; the four CA-file calls if a CA
    file is given; the five CRL calls, [LoadCRLFile] last, if a CRL file is
    given.  Nothing else is called. *)
Theorem setupCtx_success_trace
    (opts : options.ToolOptions) (s : State) (c : openssl.Ctx) :
  fst (setupCtx E opts s) = inl c ->
  calls (snd (setupCtx E opts s))
  = (calls s
     ++ [openssl.CFIPSModeSet (options.SSLFipsMode opts);
         openssl.CNewCtxWithVersion openssl.AnyVersion;
         openssl.CSetOptions
           (Z.lor (openssl.OpAll (lib E)) (openssl.NoSSLv2 (lib E)));
         openssl.CSetCipherList "HIGH:!EXPORT:!aNULL@STRENGTH"]
     ++ (if nonempty (options.SSLPEMKeyFile opts)
         then [openssl.CUseCertificateChainFile (options.SSLPEMKeyFile opts);
               (if nonempty (options.SSLPEMKeyPassword opts)
                then openssl.CUsePrivateKeyFileWithPassword
                       (options.SSLPEMKeyFile opts) openssl.FiletypePEM
                       (options.SSLPEMKeyPassword opts)
                else openssl.CUsePrivateKeyFile
                       (options.SSLPEMKeyFile opts) openssl.FiletypePEM);
               openssl.CCheckPrivateKey]
         else [])
     ++ [openssl.CSetMode (openssl.AutoRetry (lib E));
         openssl.CSetSessionCacheMode openssl.SessionCacheOff]
     ++ (if nonempty (options.SSLCAFile opts)
         then match openssl.LoadClientCAFile_res (lib E)
                      (options.SSLCAFile opts) with
              | inl calist =>
                  [openssl.CLoadClientCAFile (options.SSLCAFile opts);
                   openssl.CSetClientCAList calist;
                   openssl.CLoadVerifyLocations (options.SSLCAFile opts) "";
                   openssl.CSetVerify
                     (if options.SSLAllowInvalidCert opts
                      then openssl.VerifyNone else openssl.VerifyPeer)]
              | inr _ => []
              end
         else [])
     ++ (if nonempty (options.SSLCRLFile opts)
         then [openssl.CGetCertificateStore;
               openssl.CStoreSetFlags (openssl.CRLCheck (lib E));
               openssl.CX509LookupFile;
               openssl.CAddLookup openssl.LookupFile;
               openssl.CLoadCRLFile (options.SSLCRLFile opts)]
         else []))%list.
Proof.
  run_go; intro H; try discriminate H; clear H;
    repeat rewrite <- app_assoc; cbn [app]; reflexivity.
Qed.

(** X3. Once the build has reached the CA-file step with a non-empty CA
    file, a file that cannot be loaded ends it: if the client CA names cannot be
    read the build ends on [LoadClientCAFile] with "LoadClientCAFile: " and
    the binding's error; if the names are read and the verify locations
    cannot be loaded it ends on [LoadVerifyLocations] with
    "LoadVerifyLocations: " and the binding's error.  In both cases the
    verification mode is not set and no CRL call is made. *)
Theorem setupCtx_CA_file_failure (opts : options.ToolOptions) (s : State) :
  early_steps_pass E opts ->
  pem_step_passes E opts ->
  options.SSLCAFile opts <> "" ->
  (forall e,
      openssl.LoadClientCAFile_res (lib E) (options.SSLCAFile opts) = inr e ->
      fst (setupCtx E opts s) = inr ("LoadClientCAFile: " ++ e) /\
      exists new,
        calls (snd (setupCtx E opts s))
        = (calls s ++ new
             ++ [openssl.CLoadClientCAFile (options.SSLCAFile opts)])%list /\
        forallb (fun c => negb (is_ca_followup c || is_crl_call c)) new = true) /\
  (forall calist e,
      openssl.LoadClientCAFile_res (lib E) (options.SSLCAFile opts)
      = inl calist ->
      openssl.LoadVerifyLocations_err (lib E) (options.SSLCAFile opts) ""
      = Some e ->
      fst (setupCtx E opts s) = inr ("LoadVerifyLocations: " ++ e) /\
      exists new,
        calls (snd (setupCtx E opts s))
        = (calls s ++ new
             ++ [openssl.CLoadVerifyLocations (options.SSLCAFile opts) ""])%list /\
        forallb (fun c => negb (is_SetVerify c || is_crl_call c)) new = true).
Proof.
  intros Hearly Hpem Hca. revert Hearly Hpem. unfold_steps.
  unfold setupCtx. rewrite (nonempty_true _ Hca).
  split.
  - run_go; use_answers; try congruence;
      (split; [congruence || reflexivity|]);
      repeat rewrite <- app_assoc; cbn [app];
      (eexists; split; [f_equal; locate_run | reflexivity]).
  - run_go; use_answers; try congruence;
      (split; [congruence || reflexivity|]);
      repeat rewrite <- app_assoc; cbn [app];
      (eexists; split; [f_equal; locate_run | reflexivity]).
Qed.

(** X4. Once the build has reached the CRL step with a non-empty CRL file:
    if the file lookup cannot be registered, the build ends on [AddLookup]
    with "AddLookup(X509LookupFile()): " and the binding's error, after
    [GetCertificateStore], [SetFlags(CRLCheck)] and [X509LookupFile]; no CRL
    file is loaded. *)
Theorem setupCtx_AddLookup_failure
    (opts : options.ToolOptions) (s : State) (e : error) :
  early_steps_pass E opts ->
  pem_step_passes E opts ->
  ca_step_passes E opts ->
  options.SSLCRLFile opts <> "" ->
  openssl.AddLookup_err (lib E) (crl_store E opts) openssl.LookupFile
  = Some e ->
  fst (setupCtx E opts s) = inr ("AddLookup(X509LookupFile()): " ++ e) /\
  exists new,
    calls (snd (setupCtx E opts s))
    = (calls s ++ new
         ++ [openssl.CGetCertificateStore;
             openssl.CStoreSetFlags (openssl.CRLCheck (lib E));
             openssl.CX509LookupFile;
             openssl.CAddLookup openssl.LookupFile])%list /\
    forallb (fun c => negb (is_crl_call c)) new = true.
Proof.
  intros Hearly Hpem Hca Hcrl. revert Hearly Hpem Hca. unfold_steps.
  unfold setupCtx. rewrite (nonempty_true _ Hcrl).
  run_go; use_answers; try congruence;
    (split; [congruence || reflexivity|]);
    repeat rewrite <- app_assoc; cbn [app];
    (eexists; split; [f_equal; locate_run | reflexivity]).
Qed.

(** X5. In a context the builder returns, revocation checking is on exactly
    when a CRL file was given: with a CRL file the store has the [CRLCheck]
    flag and the file lookup registered; with an empty CRL path the store
    flags and lookups are those of a fresh context and no call of the CRL
    step was made. *)
Theorem setupCtx_CRL_step
    (opts : options.ToolOptions) (s : State) (c : openssl.Ctx) :
  fst (setupCtx E opts s) = inl c ->
  (options.SSLCRLFile opts <> "" ->
   openssl.ctx_store c
   = openssl.store_with_lookups [openssl.LookupFile] (crl_store E opts) /\
   Z.land (openssl.store_flags (openssl.ctx_store c)) (openssl.CRLCheck (lib E))
   = openssl.CRLCheck (lib E)) /\
  (options.SSLCRLFile opts = "" ->
   openssl.store_flags (openssl.ctx_store c) = 0 /\
   openssl.store_lookups (openssl.ctx_store c) = [] /\
   exists new,
     calls (snd (setupCtx E opts s)) = (calls s ++ new)%list /\
     forallb (fun c => negb (is_crl_call c)) new = true).
Proof.
  intro H. split; intro Hcrl; revert H; unfold_steps; unfold setupCtx.
  - rewrite (nonempty_true _ Hcrl).
    run_go; intro H; try discriminate H; injection H as <-;
      cbn; (split; [reflexivity | apply Z.land_diag]).
  - rewrite (nonempty_false _ Hcrl).
    run_go; intro H; try discriminate H; injection H as <-;
      (split; [reflexivity|]); (split; [reflexivity|]);
      repeat rewrite <- app_assoc; cbn [app];
      (eexists; split; reflexivity).
Qed.
End Builder.

Section Sessions.
Variable E : Env.

Lemma GetNewSession_ctx (s : State) :
  ctx (self (snd (GetNewSession E s))) = ctx (self s).
Proof.
  destruct (dialInfo (self s)) as [di|] eqn:Hdi.
  - rewrite (GetNewSession_configured E s di Hdi). cbv zeta. cbn [snd].
    apply dial_each_ctx.
  - unfold GetNewSession, bind, get_self. rewrite Hdi.
    unfold DialWithInfo, ret.
    destruct (mgo.nil_info (session_layer E)) as [[?|?]|?]; try reflexivity.
    destruct (dialError (self s)); reflexivity.
Qed.

Lemma GetNewSession_nil_calls (s : State) :
  dialInfo (self s) = None -> calls (snd (GetNewSession E s)) = calls s.
Proof.
  intro Hdi. unfold GetNewSession, bind, get_self. rewrite Hdi.
  unfold DialWithInfo, ret.
  destruct (mgo.nil_info (session_layer E)) as [[?|?]|?]; try reflexivity.
  destruct (dialError (self s)); reflexivity.
Qed.

Lemma forallb_is_Dial_map {A} (f : A -> string) (c : option openssl.Ctx)
    (fl : openssl.DialFlags) (l : list A) :
  forallb is_Dial (map (fun a => openssl.CDial "tcp" (f a) c fl) l) = true.
Proof. induction l as [|a l IH]; [reflexivity | exact IH]. Qed.

(** X8. The builder reads neither host, port, credentials nor
    allow-invalid-hostname: replacing them changes neither the outcome of
    the build nor its calls, and so not the context [Configure] stores. *)
Theorem setupCtx_reads_only_SSL_fields
    (host port : string) (a : options.Auth) (allowInvalidHost : bool)
    (opts : options.ToolOptions) (s : State) :
  setupCtx E (with_connection_fields host port a allowInvalidHost opts) s
  = setupCtx E opts s /\
  ctx (self (snd (Configure E
                    (with_connection_fields host port a allowInvalidHost opts)
                    s)))
  = ctx (self (snd (Configure E opts s))).
Proof.
  assert (H : setupCtx E
                (with_connection_fields host port a allowInvalidHost opts) s
              = setupCtx E opts s) by reflexivity.
  split; [exact H|].
  unfold Configure, bind, set_ctx, set_dialInfo, ret. rewrite H.
  destruct (setupCtx E opts s) as [[c|e] s1]; reflexivity.
Qed.

(** X9. [Configure] fails exactly when the builder does, with the builder's
    error behind "setupCtx: ".  A failed [Configure] issues the builder's
    calls, resets the connector's context to [nil] and keeps the dial info
    and the recorded dial error it found: if a dial info was there, a
    following [GetNewSession] dials through it with a [nil] context. *)
Theorem Configure_failure (opts : options.ToolOptions) (s : State) :
  (forall msg,
      fst (Configure E opts s) = Some msg ->
      exists e, fst (setupCtx E opts s) = inr e /\ msg = "setupCtx: " ++ e) /\
  (forall e,
      fst (setupCtx E opts s) = inr e ->
      let s' := snd (Configure E opts s) in
      fst (Configure E opts s) = Some ("setupCtx: " ++ e) /\
      ctx (self s') = None /\
      dialInfo (self s') = dialInfo (self s) /\
      dialError (self s') = dialError (self s) /\
      calls s' = calls (snd (setupCtx E opts s)) /\
      (forall di,
          dialInfo (self s) = Some di ->
          calls (snd (GetNewSession E s'))
          = (calls s'
             ++ map (fun a => openssl.CDial "tcp" (mgo.String a) None
                                (captured_flags (mgo.DialServer di)))
                  (mgo.dial_plan (session_layer E) di))%list)).
Proof.
  split.
  - intros msg. unfold Configure, bind, set_ctx, set_dialInfo, ret.
    destruct (setupCtx E opts s) as [[c|e] s1]; cbn [fst]; [discriminate|].
    intro H. injection H as <-. now exists e.
  - intros e He s'.
    assert (Hfst : fst (Configure E opts s) = Some ("setupCtx: " ++ e)).
    { revert He. unfold Configure, bind, set_ctx, set_dialInfo, ret.
      destruct (setupCtx E opts s) as [[c|e'] s1]; cbn [fst];
        [discriminate|]. intro H. injection H as ->. reflexivity. }
    pose proof (Configure_err_self E opts s _ Hfst) as Hself.
    rewrite setupCtx_self in Hself. fold s' in Hself.
    assert (Hcalls : calls s' = calls (snd (setupCtx E opts s))).
    { subst s'. revert He. unfold Configure, bind, set_ctx, set_dialInfo, ret.
      destruct (setupCtx E opts s) as [[c|e'] s1]; cbn [fst];
        [discriminate|]. reflexivity. }
    split; [exact Hfst|]. rewrite Hself. cbn [ctx dialInfo dialError].
    repeat split; try assumption.
    intros di Hdi.
    assert (Hdi' : dialInfo (self s') = Some di) by (rewrite Hself; exact Hdi).
    rewrite (GetNewSession_calls E s' di Hdi'). rewrite Hself. reflexivity.
Qed.

(** X10. After a successful [Configure] the connector holds the context
    the builder returned and a dial info with the addresses made from host
    and port and with the credentials of the options, passed on unchanged;
    [Configure] has issued the builder's calls and no other.  A following
    [GetNewSession] dials exactly the addresses the session layer asks for,
    each over "tcp" with that context and the captured flags. *)
Theorem Configure_then_GetNewSession (opts : options.ToolOptions) (s : State) :
  fst (Configure E opts s) = None ->
  let s1 := snd (Configure E opts s) in
  exists c di,
    fst (setupCtx E opts s) = inl c /\
    ctx (self s1) = Some c /\
    dialInfo (self s1) = Some di /\
    mgo.Addrs di
    = CreateConnectionAddrs (helpers E) (options.Host opts) (options.Port opts) /\
    mgo.Username di = options.Username (options.auth opts) /\
    mgo.Password di = options.Password (options.auth opts) /\
    mgo.Source di = GetAuthenticationDatabase (helpers E) opts /\
    mgo.Mechanism di = options.Mechanism (options.auth opts) /\
    calls s1 = calls (snd (setupCtx E opts s)) /\
    calls (snd (GetNewSession E s1))
    = (calls (snd (setupCtx E opts s))
       ++ map (fun a => openssl.CDial "tcp" (mgo.String a) (Some c)
                          (captured_flags (mgo.DialServer di)))
            (mgo.dial_plan (session_layer E) di))%list.
Proof.
  intros Hnil s1.
  destruct (Configure_nil_self E opts s Hnil) as (c & Hc & Hself).
  fold s1 in Hself.
  assert (Hcalls : calls s1 = calls (snd (setupCtx E opts s))).
  { subst s1. revert Hc. unfold Configure, bind, set_ctx, set_dialInfo, ret.
    destruct (setupCtx E opts s) as [[c'|e'] s0]; cbn [fst];
      [|discriminate]. reflexivity. }
  exists c. eexists. split; [exact Hc|].
  rewrite Hself. cbn [ctx dialInfo].
  split; [reflexivity|]. split; [reflexivity|].
  cbn [mgo.Addrs mgo.Username mgo.Password mgo.Source mgo.Mechanism].
  repeat (split; [reflexivity|]).
  split; [exact Hcalls|].
  erewrite GetNewSession_calls by (rewrite Hself; reflexivity).
  rewrite Hcalls, Hself. reflexivity.
Qed.

(** X11. [GetNewSession] changes neither the dial info nor the context of
    the connector, and the only calls it makes on the binding are [Dial]s.
    When the session layer returns a session, [GetNewSession] returns that
    session, whatever the dials of the attempt have recorded. *)
Theorem GetNewSession_frame (s : State) :
  dialInfo (self (snd (GetNewSession E s))) = dialInfo (self s) /\
  ctx (self (snd (GetNewSession E s))) = ctx (self s) /\
  (exists new,
      calls (snd (GetNewSession E s)) = (calls s ++ new)%list /\
      forallb is_Dial new = true) /\
  (forall di session,
      dialInfo (self s) = Some di ->
      mgo.finish (session_layer E) di
        (fst (dial_each E (mgo.DialServer di)
                (mgo.dial_plan (session_layer E) di) s))
      = inl session ->
      fst (GetNewSession E s) = Returned (inl session)).
Proof.
  split; [apply GetNewSession_dialInfo|].
  split; [apply GetNewSession_ctx|]. split.
  - destruct (dialInfo (self s)) as [di|] eqn:Hdi.
    + eexists. split; [exact (GetNewSession_calls E s di Hdi)|].
      apply forallb_is_Dial_map.
    + exists []. rewrite app_nil_r. split; [|reflexivity].
      now apply GetNewSession_nil_calls.
  - intros di session Hdi Hfin.
    rewrite (GetNewSession_configured E s di Hdi). cbv zeta. cbn [fst].
    rewrite Hfin. reflexivity.
Qed.

(** X12. The recorded dial error is overwritten by every dial and by
    nothing else: after [GetNewSession] it is the error of the last dial of
    the attempt, [nil] if that dial succeeded, and what it was before if the
    session layer dialed nothing; [Configure] never changes it.  So when the
    session layer fails without dialing, the error returned carries the dial
    error recorded by an earlier attempt. *)
Theorem dialError_record (s : State) (di : mgo.DialInfo) :
  dialInfo (self s) = Some di ->
  let run := dial_each E (mgo.DialServer di)
               (mgo.dial_plan (session_layer E) di) s in
  dialError (self (snd (GetNewSession E s)))
  = match last (map Some (fst run)) None with
    | None => dialError (self s)
    | Some (inl _) => None
    | Some (inr e) => Some e
    end /\
  (forall opts, dialError (self (snd (Configure E opts s)))
                = dialError (self s)) /\
  (forall err e0,
      mgo.dial_plan (session_layer E) di = [] ->
      mgo.finish (session_layer E) di [] = inr err ->
      dialError (self s) = Some e0 ->
      fst (GetNewSession E s)
      = Returned (inr (err ++ ", openssl error: " ++ e0))).
Proof.
  intros Hdi run. split; [|split].
  - rewrite (GetNewSession_configured E s di Hdi). cbv zeta. cbn [snd].
    apply dial_each_dialError.
  - intro opts. unfold Configure, bind, set_ctx, set_dialInfo, ret.
    pose proof (setupCtx_self E opts s) as Hs.
    destruct (setupCtx E opts s) as [[c|e] s1]; cbn [snd] in Hs |- *;
      cbn [self dialError]; now rewrite Hs.
  - intros err e0 Hplan Hfin He0.
    rewrite (GetNewSession_configured E s di Hdi). cbv zeta.
    rewrite Hplan. cbn [dial_each ret fst snd]. rewrite Hfin, He0.
    reflexivity.
Qed.
(** X13. The dial info of a successful [Configure] carries as timeout the
    value the package variable [DefaultSSLDialTimeout] holds when
    [Configure] runs, whatever the options and the connector's earlier
    state; with the variable as declared that is three seconds
    (3 000 000 000 ns).  [GetNewSession] leaves the timeout in the dial
    info as it is. *)
Theorem Configure_timeout_from_variable
    (opts : options.ToolOptions) (s : State) :
  fst (Configure E opts s) = None ->
  exists di,
    dialInfo (self (snd (Configure E opts s))) = Some di /\
    mgo.Timeout di = DefaultSSLDialTimeout (vars E) /\
    (vars E = declared_vars ->
     mgo.Timeout di = 3 * time.Second /\
     mgo.Timeout di = 3000000000 * time.Nanosecond) /\
    (forall s' : State,
        dialInfo (self s') = Some di ->
        exists di',
          dialInfo (self (snd (GetNewSession E s'))) = Some di' /\
          mgo.Timeout di' = DefaultSSLDialTimeout (vars E)).
Proof.
  intro Hnil. destruct (Configure_nil_self E opts s Hnil) as (c & _ & Hself).
  rewrite Hself. cbn [dialInfo]. eexists. split; [reflexivity|].
  cbn [mgo.Timeout]. split; [reflexivity|]. split.
  - intros ->. split; reflexivity.
  - intros s' Hs'. eexists. split.
    + rewrite GetNewSession_dialInfo. exact Hs'.
    + reflexivity.
Qed.

End Sessions.

(** ** The further properties at concrete inputs *)

(** X1 with a binding that has no FIPS support. *)
Lemma setupCtx_FIPS_first_witness :
  openssl.FIPSModeSet_err (lib no_fips_env) (options.SSLFipsMode fips_opts)
  = Some "FIPS mode not supported" /\
  setupCtx no_fips_env fips_opts initial_state
  = (inr "couldn't set FIPS mode to true: FIPS mode not supported",
     {| self := zero_connector; calls := [openssl.CFIPSModeSet true] |}) /\
  fst (Configure no_fips_env fips_opts initial_state)
  = Some "setupCtx: couldn't set FIPS mode to true: FIPS mode not supported".
Proof.
  split; [reflexivity|].
  exact (proj2 (setupCtx_FIPS_first no_fips_env fips_opts initial_state)
           _ eq_refl).
Defined.

(** X2 with a binding that cannot allocate a context. *)
Lemma setupCtx_NewCtx_failure_witness :
  openssl.FIPSModeSet_err (lib no_ctx_env) (options.SSLFipsMode full_opts)
  = None /\
  openssl.NewCtxWithVersion_err (lib no_ctx_env) openssl.AnyVersion
  = Some "SSL_CTX_new failed" /\
  fst (Configure no_ctx_env full_opts initial_state)
  = Some "setupCtx: failure creating new openssl context with NewCtxWithVersion(AnyVersion): SSL_CTX_new failed".
Proof.
  split; [reflexivity|]. split; [reflexivity|].
  exact (proj1 (proj2 (setupCtx_NewCtx_failure no_ctx_env full_opts
                         initial_state _ eq_refl eq_refl))).
Defined.

Lemma sample_early_steps_pass (missing down : list string)
    (opts : options.ToolOptions) :
  early_steps_pass (sample_env missing down) opts.
Proof. split; reflexivity. Qed.

Lemma full_opts_pem_step_passes :
  pem_step_passes (sample_env ["ca.pem"] []) full_opts.
Proof. intros _. repeat split; reflexivity. Qed.

(** X3 with a CA file that does not exist. *)
Lemma setupCtx_CA_file_failure_witness :
  early_steps_pass (sample_env ["ca.pem"] []) full_opts /\
  pem_step_passes (sample_env ["ca.pem"] []) full_opts /\
  options.SSLCAFile full_opts <> "" /\
  fst (setupCtx (sample_env ["ca.pem"] []) full_opts initial_state)
  = inr "LoadClientCAFile: no such file: ca.pem".
Proof.
  assert (Hca : options.SSLCAFile full_opts <> "") by discriminate.
  split; [apply sample_early_steps_pass|].
  split; [exact full_opts_pem_step_passes|]. split; [exact Hca|].
  exact (proj1 (proj1 (setupCtx_CA_file_failure (sample_env ["ca.pem"] [])
                         full_opts initial_state
                         (sample_early_steps_pass _ _ _)
                         full_opts_pem_step_passes Hca) _ eq_refl)).
Defined.

Lemma no_lookup_steps_pass :
  early_steps_pass no_lookup_env full_opts /\
  pem_step_passes no_lookup_env full_opts /\
  ca_step_passes no_lookup_env full_opts.
Proof.
  split; [split; reflexivity|]. split.
  - intros _. repeat split; reflexivity.
  - intros _. split; [eexists; reflexivity | reflexivity].
Qed.

(** X4 with a binding that cannot register a lookup. *)
Lemma setupCtx_AddLookup_failure_witness :
  early_steps_pass no_lookup_env full_opts /\
  pem_step_passes no_lookup_env full_opts /\
  ca_step_passes no_lookup_env full_opts /\
  options.SSLCRLFile full_opts <> "" /\
  openssl.AddLookup_err (lib no_lookup_env) (crl_store no_lookup_env full_opts)
    openssl.LookupFile
  = Some "X509_STORE_add_lookup failed" /\
  fst (setupCtx no_lookup_env full_opts initial_state)
  = inr "AddLookup(X509LookupFile()): X509_STORE_add_lookup failed".
Proof.
  assert (Hcrl : options.SSLCRLFile full_opts <> "") by discriminate.
  destruct no_lookup_steps_pass as (He & Hp & Hc).
  split; [exact He|]. split; [exact Hp|]. split; [exact Hc|].
  split; [exact Hcrl|]. split; [reflexivity|].
  exact (proj1 (setupCtx_AddLookup_failure no_lookup_env full_opts
                  initial_state _ He Hp Hc Hcrl eq_refl)).
Defined.

(** X5 at options naming a CRL file. *)
Lemma setupCtx_CRL_step_witness :
  exists c,
    fst (setupCtx (sample_env [] []) full_opts initial_state) = inl c /\
    options.SSLCRLFile full_opts <> "" /\
    openssl.store_flags (openssl.ctx_store c) = 0x4 /\
    openssl.store_lookups (openssl.ctx_store c) = [openssl.LookupFile].
Proof.
  assert (Hcrl : options.SSLCRLFile full_opts <> "") by discriminate.
  eexists. split; [reflexivity|]. split; [exact Hcrl|].
  pose proof (proj1 (proj1 (setupCtx_CRL_step (sample_env [] []) full_opts
                              initial_state _ eq_refl) Hcrl)) as Hstore.
  rewrite Hstore. split; reflexivity.
Defined.

Lemma full_opts_steps_pass :
  early_steps_pass (sample_env [] []) full_opts /\
  pem_step_passes (sample_env [] []) full_opts /\
  ca_step_passes (sample_env [] []) full_opts /\
  crl_step_passes (sample_env [] []) full_opts.
Proof.
  split; [split; reflexivity|]. split; [|split].
  - intros _. repeat split; reflexivity.
  - intros _. split; [eexists; reflexivity | reflexivity].
  - intros _. reflexivity.
Qed.

(** X6 with a binding that accepts everything. *)
Lemma setupCtx_succeeds_iff_witness :
  (early_steps_pass (sample_env [] []) full_opts /\
   pem_step_passes (sample_env [] []) full_opts /\
   ca_step_passes (sample_env [] []) full_opts /\
   crl_step_passes (sample_env [] []) full_opts) /\
  exists c, fst (setupCtx (sample_env [] []) full_opts initial_state) = inl c.
Proof.
  split; [exact full_opts_steps_pass|].
  exact (proj2 (setupCtx_succeeds_iff (sample_env [] []) full_opts
                  initial_state) full_opts_steps_pass).
Defined.

(** X7 at options naming every file. *)
Lemma setupCtx_success_trace_witness :
  exists c,
    fst (setupCtx (sample_env [] []) full_opts initial_state) = inl c /\
    calls (snd (setupCtx (sample_env [] []) full_opts initial_state))
    = [openssl.CFIPSModeSet false;
       openssl.CNewCtxWithVersion openssl.AnyVersion;
       openssl.CSetOptions 0x81000BFF;
       openssl.CSetCipherList "HIGH:!EXPORT:!aNULL@STRENGTH";
       openssl.CUseCertificateChainFile "client.pem";
       openssl.CUsePrivateKeyFileWithPassword "client.pem"
         openssl.FiletypePEM "secret";
       openssl.CCheckPrivateKey;
       openssl.CSetMode 0x4;
       openssl.CSetSessionCacheMode openssl.SessionCacheOff;
       openssl.CLoadClientCAFile "ca.pem";
       openssl.CSetClientCAList {| openssl.ca_names_of := "ca.pem" |};
       openssl.CLoadVerifyLocations "ca.pem" "";
       openssl.CSetVerify openssl.VerifyPeer;
       openssl.CGetCertificateStore;
       openssl.CStoreSetFlags 0x4;
       openssl.CX509LookupFile;
       openssl.CAddLookup openssl.LookupFile;
       openssl.CLoadCRLFile "crl.pem"].
Proof.
  eexists. split; [reflexivity|].
  exact (setupCtx_success_trace (sample_env [] []) full_opts initial_state
           _ eq_refl).
Defined.

(** X9 on a connector configured once, then configured again with a CA file
    that does not exist. *)
Lemma Configure_failure_witness :
  let E := sample_env ["ca.pem"] [] in
  let s := snd (Configure E plain_opts initial_state) in
  fst (setupCtx E full_opts s) = inr "LoadClientCAFile: no such file: ca.pem" /\
  fst (Configure E full_opts s)
  = Some "setupCtx: LoadClientCAFile: no such file: ca.pem" /\
  ctx (self (snd (Configure E full_opts s))) = None /\
  dialInfo (self (snd (Configure E full_opts s))) = dialInfo (self s).
Proof.
  cbv zeta. split; [reflexivity|].
  destruct (proj2 (Configure_failure (sample_env ["ca.pem"] []) full_opts
                     (snd (Configure (sample_env ["ca.pem"] []) plain_opts
                             initial_state)))
              _ eq_refl) as (Hmsg & Hctx & Hdi & _).
  split; [exact Hmsg|]. split; [exact Hctx | exact Hdi].
Defined.

(** X10 with a binding that accepts everything. *)
Lemma Configure_then_GetNewSession_witness :
  fst (Configure (sample_env [] []) plain_opts initial_state) = None /\
  exists c,
    ctx (self (snd (Configure (sample_env [] []) plain_opts initial_state)))
    = Some c /\
    calls (snd (GetNewSession (sample_env [] [])
                  (snd (Configure (sample_env [] []) plain_opts
                          initial_state))))
    = (calls (snd (setupCtx (sample_env [] []) plain_opts initial_state))
       ++ [openssl.CDial "tcp" "db.example.net:27017" (Some c) 1])%list.
Proof.
  split; [reflexivity|].
  destruct (Configure_then_GetNewSession (sample_env [] []) plain_opts
              initial_state eq_refl)
    as (c & di & _ & Hctx & Hdi & _ & _ & _ & _ & _ & _ & Hcalls).
  exists c. split; [exact Hctx|].
  rewrite Hcalls. injection Hdi as <-. reflexivity.
Defined.

(** X11 against a server that accepts the connection. *)
Lemma GetNewSession_frame_witness :
  let E := sample_env [] [] in
  let s := snd (Configure E full_opts initial_state) in
  dialInfo (self s) = Some full_dialInfo /\
  fst (GetNewSession E s)
  = Returned
      (inl {| mgo.session_conns :=
                [{| openssl.conn_addr := "db.example.net:27017";
                    openssl.conn_flags := 0 |}] |}).
Proof.
  cbv zeta. split; [reflexivity|].
  exact (proj2 (proj2 (proj2 (GetNewSession_frame (sample_env [] [])
                                (snd (Configure (sample_env [] []) full_opts
                                        initial_state)))))
           full_dialInfo _ eq_refl eq_refl).
Defined.

(** X12: a first attempt against a server that refuses the connection, then
    an attempt in which the session layer gives up before dialing. *)
Lemma dialError_record_witness :
  let E1 := sample_env [] ["db.example.net:27017"] in
  let E2 := with_session_layer idle_session_layer E1 in
  let s := snd (GetNewSession E1 (snd (Configure E1 full_opts initial_state))) in
  dialInfo (self s) = Some full_dialInfo /\
  dialError (self s)
  = Some "SSL errors: connection refused: db.example.net:27017" /\
  calls (snd (GetNewSession E2 s)) = calls s /\
  fst (GetNewSession E2 s)
  = Returned
      (inr "no reachable servers, openssl error: SSL errors: connection refused: db.example.net:27017").
Proof.
  cbv zeta. split; [reflexivity|]. split; [reflexivity|].
  split; [reflexivity|].
  exact (proj2 (proj2 (dialError_record
                         (with_session_layer idle_session_layer
                            (sample_env [] ["db.example.net:27017"]))
                         (snd (GetNewSession
                                 (sample_env [] ["db.example.net:27017"])
                                 (snd (Configure
                                         (sample_env [] ["db.example.net:27017"])
                                         full_opts initial_state))))
                         full_dialInfo eq_refl))
           "no reachable servers" _ eq_refl eq_refl eq_refl).
Defined.

(** X13 with the variable assigned five seconds before [Configure]. *)
Lemma Configure_timeout_from_variable_witness :
  let E := with_vars {| DefaultSSLDialTimeout := 5 * time.Second |}
             (sample_env [] []) in
  fst (Configure E full_opts initial_state) = None /\
  exists di,
    dialInfo (self (snd (Configure E full_opts initial_state))) = Some di /\
    mgo.Timeout di = 5000000000.
Proof.
  cbv zeta. split; [reflexivity|].
  destruct (Configure_timeout_from_variable
              (with_vars {| DefaultSSLDialTimeout := 5 * time.Second |}
                 (sample_env [] []))
              full_opts initial_state eq_refl) as (di & Hdi & Ht & _).
  exists di. split; [exact Hdi | exact Ht].
Defined.
